(** * neo-ai: the [edit_file] command of [commands/template.py]

    A shallow embedding of the natural-language file resolution workflow:
    the Python values the command inspects, the interpreter operations it
    relies on, its collaborators as an environment of oracles, and the
    command itself as a computation that logs every output line and every
    collaborator call and either returns a message or raises. *)

From Stdlib Require Import ZArith QArith Bool List String Ascii Lia.
From Stdlib Require Import Permutation Sorted.
Import ListNotations.

#[local] Set Warnings "-register-all".

Local Open Scope string_scope.
Local Open Scope Z_scope.

(** ** Exceptions and results *)

(** The classes the two [except] clauses of [edit_file] tell apart, and the
    ones the interpreter raises on the way.  A subclass counts as its base
    ([UnicodeError] as [ValueError]); everything else under [Exception] is
    [OtherException].  Interpreter exits ([SystemExit], [KeyboardInterrupt])
    are not exceptions of this model. *)
Inductive exn_class : Type :=
| ValueError | IndexError | TypeError | AttributeError | KeyError
| OverflowError | OtherException.

(** [Builtin c] is raised by the interpreter itself (its message text is not
    modelled); [Raised c msg] comes from a collaborator. *)
Inductive exn : Type :=
| Builtin (c : exn_class)
| Raised (c : exn_class) (msg : string).

Definition class_of (e : exn) : exn_class :=
  match e with Builtin c => c | Raised c _ => c end.

Inductive result (A : Type) : Type :=
| Ok (a : A)
| Raise (e : exn).
Arguments Ok {A} a.
Arguments Raise {A} e.

Definition rbind {A B} (r : result A) (f : A -> result B) : result B :=
  match r with Ok a => f a | Raise e => Raise e end.

(** ** Python values *)

(** JSON-shaped Python objects.  A finite float is kept by its exact value,
    a rational (every finite binary64 is one); [PInf] is one of the two
    infinities and [PNan] is NaN, the floats [json.loads] returns for
    [Infinity], [-Infinity] and [NaN] and for a literal beyond the float
    range.  A dict is an association list read by its first binding. *)
Inductive pyval : Type :=
| PNone
| PBool (b : bool)
| PInt (z : Z)
| PFloat (q : Q)
| PInf (negative : bool)
| PNan
| PStr (s : string)
| PList (l : list pyval)
| PDict (d : list (string * pyval)).

(** The float literals of the source, as the binary64 values they denote. *)
Definition float_0_9 : Q := 8106479329266893 # 9007199254740992.
Definition float_0_8 : Q := 3602879701896397 # 4503599627370496.

Fixpoint dict_lookup (k : string) (d : list (string * pyval)) : option pyval :=
  match d with
  | [] => None
  | (k', v) :: d' => if String.eqb k k' then Some v else dict_lookup k d'
  end.

(** [bool(v)] *)
Definition py_truthy (v : pyval) : bool :=
  match v with
  | PNone => false
  | PBool b => b
  | PInt z => negb (z =? 0)
  | PFloat q => negb (Qeq_bool q 0)
  | PInf _ | PNan => true
  | PStr s => negb (String.eqb s "")
  | PList l => match l with [] => false | _ => true end
  | PDict d => match d with [] => false | _ => true end
  end.

(** [v.get(k, default)]: only a dict has the method. *)
Definition py_get (v : pyval) (k : string) (default : pyval) : result pyval :=
  match v with
  | PDict d => Ok (match dict_lookup k d with Some x => x | None => default end)
  | _ => Raise (Builtin AttributeError)
  end.

(** [v[k]] for a string key [k]. *)
Definition py_getitem (v : pyval) (k : string) : result pyval :=
  match v with
  | PDict d => match dict_lookup k d with
               | Some x => Ok x
               | None => Raise (Builtin KeyError)
               end
  | _ => Raise (Builtin TypeError)
  end.

Fixpoint chars (s : string) : list pyval :=
  match s with
  | EmptyString => []
  | String c s' => PStr (String c EmptyString) :: chars s'
  end.

(** [for x in v]: the elements of a list, the keys of a dict, the
    characters of a string; nothing else among these values iterates. *)
Definition py_iter (v : pyval) : result (list pyval) :=
  match v with
  | PList l => Ok l
  | PDict d => Ok (map (fun kv => PStr (fst kv)) d)
  | PStr s => Ok (chars s)
  | _ => Raise (Builtin TypeError)
  end.

(** The value of a finite number: a [bool], an [int] or a finite [float]. *)
Definition num_val (v : pyval) : option Q :=
  match v with
  | PBool b => Some (if b then 1 else 0)%Q
  | PInt z => Some (inject_Z z)
  | PFloat q => Some q
  | _ => None
  end.

(** Is [v] a finite number? *)
Definition is_num (v : pyval) : bool :=
  match num_val v with Some _ => true | None => false end.

Definition Qltb (p q : Q) : bool := negb (Qle_bool q p).

(** A number as the comparisons see it. *)
Inductive number : Type :=
| Finite (q : Q)
| Infinite (negative : bool)
| NotANumber.

Definition number_of (v : pyval) : option number :=
  match v with
  | PInf negative => Some (Infinite negative)
  | PNan => Some NotANumber
  | _ => option_map Finite (num_val v)
  end.

(** [x < y] on numbers, an [int] and a [float] compared by their exact
    values; NaN is below nothing and nothing is below it. *)
Definition number_lt (x y : number) : bool :=
  match x, y with
  | Finite p, Finite q => Qltb p q
  | Finite _, Infinite negative => negb negative
  | Infinite negative, Finite _ => negative
  | Infinite s, Infinite t => s && negb t
  | _, _ => false
  end.

(** [x is y or x == y] on numbers; every NaN is the one object that
    [json.loads] returns for the token. *)
Definition number_same (x y : number) : bool :=
  match x, y with
  | Finite p, Finite q => Qeq_bool p q
  | Infinite s, Infinite t => Bool.eqb s t
  | NotANumber, NotANumber => true
  | _, _ => false
  end.

(** [a is b or a == b], the test a list comparison makes of two elements
    before it orders them; it never raises on these values. *)
Fixpoint py_eqb (a b : pyval) {struct a} : bool :=
  match a, b with
  | PNone, PNone => true
  | PStr s, PStr t => String.eqb s t
  | PList xs, PList ys =>
      (fix all2 (xs ys : list pyval) {struct xs} : bool :=
         match xs, ys with
         | [], [] => true
         | x :: xs', y :: ys' => py_eqb x y && all2 xs' ys'
         | _, _ => false
         end) xs ys
  | PDict d, PDict e =>
      (fix incl (d : list (string * pyval)) (seen : list string)
           {struct d} : bool :=
         match d with
         | [] => true
         | (k, v) :: d' =>
             (if existsb (String.eqb k) seen then true
              else match dict_lookup k e with
                   | Some w => py_eqb v w
                   | None => false
                   end)
             && incl d' (k :: seen)
         end) d []
      && forallb (fun kw => match dict_lookup (fst kw) d with
                            | Some _ => true
                            | None => false
                            end) e
  | _, _ =>
      match number_of a, number_of b with
      | Some x, Some y => number_same x y
      | _, _ => false
      end
  end.

(** [a < b]: numbers by value, strings by code point, lists
    lexicographically; any other pairing is a [TypeError]. *)
Fixpoint py_lt (a b : pyval) {struct a} : result bool :=
  match a, b with
  | PStr s, PStr t => Ok (String.ltb s t)
  | PList xs, PList ys =>
      (fix lex (xs ys : list pyval) {struct xs} : result bool :=
         match xs, ys with
         | [], [] => Ok false
         | [], _ :: _ => Ok true
         | _ :: _, [] => Ok false
         | x :: xs', y :: ys' =>
             if py_eqb x y then lex xs' ys' else py_lt x y
         end) xs ys
  | _, _ =>
      match number_of a, number_of b with
      | Some x, Some y => Ok (number_lt x y)
      | _, _ => Raise (Builtin TypeError)
      end
  end.

(** [a > b] *)
Definition py_gt (a b : pyval) : result bool := py_lt b a.

(** ** Interpreter operations on strings and lists *)

Definition lower_ascii (c : ascii) : ascii :=
  let n := nat_of_ascii c in
  if ((65 <=? n) && (n <=? 90))%nat then ascii_of_nat (n + 32) else c.

(** [s.lower()], on the ASCII letters. *)
Fixpoint lower (s : string) : string :=
  match s with
  | EmptyString => EmptyString
  | String c s' => String (lower_ascii c) (lower s')
  end.

(** [sub in s] *)
Fixpoint contains (sub s : string) : bool :=
  String.prefix sub s
  || match s with
     | EmptyString => false
     | String _ s' => contains sub s'
     end.

(** A text is kept as its UTF-8 bytes.  [code_points] reads the characters
    back; bytes that are no character's encoding give [None]. *)
Definition continuation (b : N) : bool := ((128 <=? b) && (b <? 192))%N.

Fixpoint code_points (l : list N) : option (list N) :=
  match l with
  | [] => Some []
  | b0 :: r0 =>
      if (b0 <? 128)%N then option_map (cons b0) (code_points r0)
      else if ((194 <=? b0) && (b0 <? 224))%N then
        match r0 with
        | b1 :: r1 =>
            let c := ((b0 - 192) * 64 + (b1 - 128))%N in
            if continuation b1 then option_map (cons c) (code_points r1)
            else None
        | _ => None
        end
      else if ((224 <=? b0) && (b0 <? 240))%N then
        match r0 with
        | b1 :: b2 :: r2 =>
            let c := ((b0 - 224) * 4096 + (b1 - 128) * 64 + (b2 - 128))%N in
            if continuation b1 && continuation b2
               && (2048 <=? c)%N && negb ((55296 <=? c) && (c <? 57344))%N
            then option_map (cons c) (code_points r2)
            else None
        | _ => None
        end
      else if ((240 <=? b0) && (b0 <? 245))%N then
        match r0 with
        | b1 :: b2 :: b3 :: r3 =>
            let c := ((b0 - 240) * 262144 + (b1 - 128) * 4096
                      + (b2 - 128) * 64 + (b3 - 128))%N in
            if continuation b1 && continuation b2 && continuation b3
               && (65536 <=? c)%N && (c <? 1114112)%N
            then option_map (cons c) (code_points r3)
            else None
        | _ => None
        end
      else None
  end.

(** The white space beyond ASCII: U+0085, U+00A0, U+1680, U+2000-200A,
    U+2028, U+2029, U+202F, U+205F, U+3000. *)
Definition unicode_space (c : N) : bool :=
  ((c =? 0x85) || (c =? 0xA0) || (c =? 0x1680)
   || ((0x2000 <=? c) && (c <=? 0x200A))
   || (c =? 0x2028) || (c =? 0x2029) || (c =? 0x202F) || (c =? 0x205F)
   || (c =? 0x3000))%N.

(** The zero of each script's decimal digits, which stand in a row from
    zero to nine (Unicode 14.0, the character tables of CPython 3.11). *)
Definition decimal_zeros : list N :=
  [0x30; 0x660; 0x6F0; 0x7C0; 0x966; 0x9E6; 0xA66; 0xAE6; 0xB66; 0xBE6;
   0xC66; 0xCE6; 0xD66; 0xDE6; 0xE50; 0xED0; 0xF20; 0x1040; 0x1090; 0x17E0;
   0x1810; 0x1946; 0x19D0; 0x1A80; 0x1A90; 0x1B50; 0x1BB0; 0x1C40; 0x1C50;
   0xA620; 0xA8D0; 0xA900; 0xA9D0; 0xA9F0; 0xAA50; 0xABF0; 0xFF10; 0x104A0;
   0x10D30; 0x11066; 0x110F0; 0x11136; 0x111D0; 0x112F0; 0x11450; 0x114D0;
   0x11650; 0x116C0; 0x11730; 0x118E0; 0x11950; 0x11C50; 0x11D50; 0x11DA0;
   0x16A60; 0x16AC0; 0x16B50; 0x1D7CE; 0x1D7D8; 0x1D7E2; 0x1D7EC; 0x1D7F6;
   0x1E140; 0x1E2F0; 0x1E950; 0x1FBF0]%N.

Definition decimal_of (c : N) : option N :=
  option_map (fun zero => (c - zero)%N)
    (find (fun zero => ((zero <=? c) && (c <? zero + 10))%N) decimal_zeros).

(** What [int] makes of a character before it reads the number: ASCII is
    kept, white space becomes a space, a decimal digit of any script the
    ASCII digit, and anything else a question mark. *)
Definition to_ascii (c : N) : ascii :=
  if (c <? 127)%N then ascii_of_N c
  else if unicode_space c then " "%char
  else match decimal_of c with
       | Some d => ascii_of_N (48 + d)
       | None => "?"%char
       end.

(** The characters [int] skips around a number: space, tab, line feed,
    vertical tab, form feed, carriage return. *)
Definition is_space (c : ascii) : bool :=
  let n := nat_of_ascii c in
  ((n =? 32) || ((9 <=? n) && (n <=? 13)))%nat.

Definition digit_of (c : ascii) : option Z :=
  let n := nat_of_ascii c in
  if ((48 <=? n) && (n <=? 57))%nat then Some (Z.of_nat (n - 48)) else None.

Fixpoint lstrip (s : list ascii) : list ascii :=
  match s with
  | c :: s' => if is_space c then lstrip s' else s
  | [] => []
  end.

Definition strip (s : list ascii) : list ascii :=
  rev (lstrip (rev (lstrip s))).

(** Decimal digits, single underscores allowed between two digits. *)
Fixpoint digits (s : list ascii) (acc : Z) (after_digit : bool) : option Z :=
  match s with
  | [] => if after_digit then Some acc else None
  | c :: s' =>
      match digit_of c with
      | Some d => digits s' (10 * acc + d) true
      | None =>
          if (Ascii.eqb c "_" && after_digit)%bool then digits s' acc false
          else None
      end
  end.

Definition is_digit (c : ascii) : bool :=
  match digit_of c with Some _ => true | None => false end.

(** An optional sign, then the digits. *)
Definition signed_digits (body : list ascii) : option Z :=
  match body with
  | c :: rest =>
      if Ascii.eqb c "-" then option_map Z.opp (digits rest 0 false)
      else if Ascii.eqb c "+" then digits rest 0 false
      else digits body 0 false
  | [] => None
  end.

(** The most digits [int] converts ([sys.get_int_max_str_digits()], as the
    interpreter starts). *)
Definition max_str_digits : nat := 4300.

(** [int(s)]: surrounding white space, an optional sign, decimal digits, no
    more than [max_str_digits] of them; anything else is a [ValueError]. *)
Definition py_int (s : string) : result Z :=
  match code_points (map N_of_ascii (list_ascii_of_string s)) with
  | Some cs =>
      let body := strip (map to_ascii cs) in
      match signed_digits body with
      | Some z =>
          if (List.length (filter is_digit body) <=? max_str_digits)%nat
          then Ok z
          else Raise (Builtin ValueError)
      | None => Raise (Builtin ValueError)
      end
  | None => Raise (Builtin ValueError)
  end.

(** [l[i]]: a negative index counts from the end. *)
Definition py_index {A} (l : list A) (i : Z) : result A :=
  let n := Z.of_nat (List.length l) in
  let j := if i <? 0 then i + n else i in
  if (0 <=? j) && (j <? n) then
    match nth_error l (Z.to_nat j) with
    | Some x => Ok x
    | None => Raise (Builtin IndexError)
    end
  else Raise (Builtin IndexError).

Definition ends_with_sep (s : string) : bool :=
  match rev (list_ascii_of_string s) with
  | c :: _ => Ascii.eqb c "/"
  | [] => false
  end.

(** [posixpath.join(path, b)] on two strings. *)
Definition posix_join (path b : string) : string :=
  if String.prefix "/" b then b
  else if String.eqb path "" || ends_with_sep path then path ++ b
  else path ++ "/" ++ b.

(** [os.path.join(a, b)]; both arguments must be strings. *)
Definition path_join (a b : pyval) : result string :=
  match a, b with
  | PStr path, PStr b' => Ok (posix_join path b')
  | _, _ => Raise (Builtin TypeError)
  end.

(** [v.get(k, default)] with an arbitrary key: lists and dicts cannot be
    hashed; any other key that is not a string equals no JSON member name. *)
Definition py_get_key (v k default : pyval) : result pyval :=
  match v with
  | PDict d =>
      match k with
      | PStr s => py_get v s default
      | PList _ | PDict _ => Raise (Builtin TypeError)
      | _ => Ok default
      end
  | _ => Raise (Builtin AttributeError)
  end.

(** ** Output text *)

(** An f-string is kept as its pieces, in source order: literal text and
    string-typed expressions, [{i+1}], [{v}] (the [str] of an object),
    [{v:.2f}] of a finite number (the two decimals of the float nearest to
    it), and [{e}] of a caught exception. *)
Inductive frag : Type :=
| Lit (s : string)
| Num (z : Z)
| Val (v : pyval)
| Fixed2 (q : Q)
| Err (e : exn).

Definition text : Type := list frag.

(** An [int] converts to a [float] when it rounds to a finite one, that is
    below [2^1024 - 2^970] in magnitude. *)
Definition fits_float (z : Z) : bool := Z.abs z <? 2 ^ 1024 - 2 ^ 970.

(** [format(v, ".2f")]: numbers only, an [int] being converted to a [float]
    first, which raises [OverflowError] beyond the float range; a string
    rejects the format code with a [ValueError], the other objects with a
    [TypeError]. *)
Definition format_2f (v : pyval) : result frag :=
  match v with
  | PBool b => Ok (Fixed2 (if b then 1 else 0))
  | PInt z =>
      if fits_float z then Ok (Fixed2 (inject_Z z))
      else Raise (Builtin OverflowError)
  | PFloat q => Ok (Fixed2 q)
  | PInf negative => Ok (Lit (if negative then "-inf" else "inf"))
  | PNan => Ok (Lit "nan")
  | PStr _ => Raise (Builtin ValueError)
  | _ => Raise (Builtin TypeError)
  end.

(** ** Effects *)

(** What a run does to the outside world, in order: the lines it writes, the
    question it asks, the shell command it runs and each collaborator call
    (logged when made, whether it returns or raises). *)
Inductive event : Type :=
| EPrint (t : text)
| EEcho (t : text)
| EPrompt (t : text)
| ESystem (cmd : text)
| ECurrentWorkspace
| EWorkspaces
| ERecentFiles
| ECodebaseStructure (root : pyval)
| EFrameworkPrompt (workspace structure : pyval) (description : string)
| EJsonPrompt (prompt : pyval)
| ECacheRecentFile (path : string)
| EOpenInEditor (path : string).

(** A computation: the events so far and a value or the exception raised. *)
Definition M (A : Type) : Type := list event * result A.

Definition ret {A} (a : A) : M A := ([], Ok a).

Definition bind {A B} (m : M A) (f : A -> M B) : M B :=
  match m with
  | (t, Ok a) => let (t', r) := f a in ((t ++ t')%list, r)
  | (t, Raise e) => (t, Raise e)
  end.

Notation "x <- m ;; k" := (bind m (fun x => k))
  (at level 61, m at next level, right associativity).
Notation "m ;; k" := (bind m (fun _ => k))
  (at level 61, right associativity).

Definition lift {A} (r : result A) : M A := ([], r).
Definition emit (ev : event) : M unit := ([ev], Ok tt).
Definition call {A} (ev : event) (r : result A) : M A := ([ev], r).
Definition print (t : text) : M unit := emit (EPrint t).
Definition echo (t : text) : M unit := emit (EEcho t).

(** [try: m except <classes>: h] *)
Definition try_except {A} (m : M A) (catches : exn -> bool) (h : exn -> M A)
  : M A :=
  match m with
  | (t, Ok a) => (t, Ok a)
  | (t, Raise e) =>
      if catches e then let (t', r) := h e in ((t ++ t')%list, r)
      else (t, Raise e)
  end.

Definition trace {A} (m : M A) : list event := fst m.
Definition outcome {A} (m : M A) : result A := snd m.

Fixpoint for_each {A} (l : list A) (body : A -> M unit) : M unit :=
  match l with
  | [] => ret tt
  | x :: l' => body x ;; for_each l' body
  end.

Fixpoint enumerate_from {A} (i : Z) (l : list A) : list (Z * A) :=
  match l with
  | [] => []
  | x :: l' => (i, x) :: enumerate_from (i + 1) l'
  end.

Definition enumerate {A} (l : list A) : list (Z * A) := enumerate_from 0 l.

(** ** Collaborators *)

(** The imported functions and the console, as oracles: what each returns
    (or raises) for the arguments it is given. *)
Record env : Type := {
  get_current_workspace : result pyval;
  get_workspaces : result pyval;
  _get_recent_files : result (list string);
  get_codebase_structure : pyval -> result pyval;
  get_framework_specific_prompt : pyval -> pyval -> string -> result pyval;
  json_prompt : pyval -> result pyval;
  _cache_recent_file : string -> result unit;
  open_in_editor : string -> result unit;
  prompt : text -> result string;
  (** [os.path.dirname(os.path.dirname(os.path.abspath(__file__)))] *)
  default_project_root : string
}.

(** ** The command *)

(** One entry of [matches] (lines 199-203). *)
Record candidate : Type := {
  file_path : pyval;
  confidence_score : pyval;
  file_type : pyval
}.

(** The body of the parsing loop (lines 198-204). *)
Definition parse_match (m : pyval) : result candidate :=
  rbind (py_get m "file" (PStr "")) (fun f =>
  rbind (py_get m "confidence_score" (PFloat float_0_8)) (fun s =>
  rbind (py_get m "file_type" (PStr "unknown")) (fun t =>
  Ok {| file_path := f; confidence_score := s; file_type := t |}))).

Fixpoint parse_all (items : list pyval) : result (list candidate) :=
  match items with
  | [] => Ok []
  | m :: items' =>
      rbind (parse_match m) (fun c =>
      rbind (parse_all items') (fun cs => Ok (c :: cs)))
  end.

(** Lines 196-204: [for match in response.get("results", [])]. *)
Definition parse_matches (response : pyval) : result (list candidate) :=
  rbind (py_get response "results" (PList [])) (fun results =>
  rbind (py_iter results) parse_all).

(** The sort key, [lambda x: x.get("confidence_score", 0)]; the key is
    always present in a parsed entry. *)
Definition sort_key (c : candidate) : pyval := confidence_score c.

(** Place [c], which stood before every element of the descending list [l],
    moving it right only past entries whose key is strictly larger. *)
Fixpoint insert_desc (c : candidate) (l : list candidate)
  : result (list candidate) :=
  match l with
  | [] => Ok [c]
  | d :: l' =>
      rbind (py_lt (sort_key c) (sort_key d)) (fun lt =>
      if lt then rbind (insert_desc c l') (fun r => Ok (d :: r))
      else Ok (c :: d :: l'))
  end.

(** Line 207: [matches.sort(key=..., reverse=True)], a stable sort that only
    asks [<] of the keys.  Where [<] orders the keys, as it does all numbers
    but NaN, every stable sort returns the list computed here.  With a NaN
    among three or more keys the order the interpreter's merge sort leaves
    the list in depends on the comparisons it happens to make, which this
    insertion does not follow: the properties that speak of the order of a
    ranked list leave NaN out, and the examples with NaN are lists that
    neither sort moves. *)
Fixpoint sort_matches (l : list candidate) : result (list candidate) :=
  match l with
  | [] => Ok []
  | c :: l' => rbind (sort_matches l') (insert_desc c)
  end.

Definition parse_and_rank (response : pyval) : result (list candidate) :=
  rbind (parse_matches response) sort_matches.

Definition selection_error (e : exn) : bool :=
  match class_of e with
  | ValueError | IndexError => true
  | _ => false
  end.

(** Lines 175-178: the [try] block of the recent-files request. *)
Definition open_recent (recent_files : list string) (choice : string)
  : M text :=
  n <- lift (py_int choice) ;;
  selected <- lift (py_index recent_files (n - 1)) ;;
  print [Lit "========== Opening file: "; Lit selected] ;;
  emit (ESystem [Lit "code --goto "; Lit selected]) ;;
  ret [Lit "========== Opened recent file: "; Lit selected].

(** Lines 169-181: list the cached files, ask, open. *)
Definition choose_recent (E : env) (recent_files : list string) : M text :=
  match recent_files with
  | [] => ret [Lit "========== No recent files found"]
  | _ :: _ =>
      echo [Lit "Recent files:"] ;;
      for_each (enumerate (firstn 5 recent_files))
        (fun '(i, file_path) => echo [Num (i + 1); Lit ". "; Lit file_path]) ;;
      let question := [Lit "Which file to open? (number)"] in
      choice <- call (EPrompt question) (prompt E question) ;;
      try_except (open_recent recent_files choice)
        selection_error
        (fun _ => ret [Lit "========== Invalid selection"])
  end.

(** Lines 167-181: the recent-files request. *)
Definition recent_files_request (E : env) : M text :=
  print [Lit "Handling recent files request"] ;;
  recent_files <- call ERecentFiles (_get_recent_files E) ;;
  choose_recent E recent_files.

(** Lines 213-218: the high-confidence branch. *)
Definition open_directly (E : env) (project_root : pyval) (top : candidate)
  : M text :=
  file_path <- lift (path_join project_root (file_path top)) ;;
  print [Lit "High confidence match found: "; Lit file_path] ;;
  call (ECacheRecentFile file_path) (_cache_recent_file E file_path) ;;
  call (EOpenInEditor file_path) (open_in_editor E file_path) ;;
  ret [Lit "Opened file: "; Lit file_path].

(** Lines 223-226: one line of the menu. *)
Definition menu_line (i : Z) (m : candidate) : M unit :=
  conf <- lift (format_2f (confidence_score m)) ;;
  echo [Num (i + 1); Lit ". "; Val (file_type m); Lit " file: ";
        Val (file_path m); Lit " (confidence: "; conf; Lit ")"].

(** Lines 230-237: the [try] block of the selection. *)
Definition open_selected (E : env) (project_root : pyval)
  (matches : list candidate) (choice : string) : M text :=
  n <- lift (py_int choice) ;;
  selected <- lift (py_index matches (n - 1)) ;;
  file_path <- lift (path_join project_root (file_path selected)) ;;
  print [Lit "User selected file: "; Lit file_path] ;;
  call (ECacheRecentFile file_path) (_cache_recent_file E file_path) ;;
  print [Lit "Opening file in editor: "; Lit file_path] ;;
  call (EOpenInEditor file_path) (open_in_editor E file_path) ;;
  ret [Lit "Opened "; Val (file_type selected); Lit " file: ";
       Lit file_path].

(** Lines 221-239: the menu, the question and the selection. *)
Definition show_options (E : env) (project_root : pyval)
  (matches : list candidate) : M text :=
  echo [Lit "Multiple matches found:"] ;;
  for_each (enumerate (firstn 5 matches))
    (fun '(i, m) => menu_line i m) ;;
  let question := [Lit "Which file to edit? (number)"] in
  choice <- call (EPrompt question) (prompt E question) ;;
  try_except (open_selected E project_root matches choice)
    selection_error
    (fun _ => ret [Lit "Invalid selection"]).

(** Lines 209-239: what to do with the sorted [matches]. *)
Definition resolve (E : env) (project_root : pyval)
  (matches : list candidate) : M text :=
  match matches with
  | [] => ret [Lit "No matching files found"]
  | top :: _ =>
      high <- lift (py_gt (confidence_score top) (PFloat float_0_9)) ;;
      if high then open_directly E project_root top
      else show_options E project_root matches
  end.

(** Lines 193-239: from the response to the returned message. *)
Definition rank_and_resolve (E : env) (project_root response : pyval)
  : M text :=
  print [Lit "DeepSeek response: "; Val response] ;;
  matches <- lift (parse_matches response) ;;
  matches <- lift (sort_matches matches) ;;
  resolve E project_root matches.

(** Lines 184-239: the matching-service path. *)
Definition match_files (E : env) (workspace project_root : pyval)
  (file_description : string) : M text :=
  codebase_structure <-
    call (ECodebaseStructure project_root)
         (get_codebase_structure E project_root) ;;
  prompt <-
    call (EFrameworkPrompt workspace codebase_structure file_description)
         (get_framework_specific_prompt E workspace codebase_structure
            file_description) ;;
  print [Lit "========== Codebase structure: "; Val codebase_structure] ;;
  print [Lit "DeepSeek prompt: "; Val prompt] ;;
  response <- call (EJsonPrompt prompt) (json_prompt E prompt) ;;
  rank_and_resolve E project_root response.

(** Lines 162-239: with the project root known. *)
Definition find_and_open (E : env) (workspace project_root : pyval)
  (file_description : string) : M text :=
  print [Lit "DEBUG: Project root set to: "; Val project_root] ;;
  print [Lit "========== Starting edit_file with: "; Lit file_description] ;;
  if contains "recent" (lower file_description) then recent_files_request E
  else match_files E workspace project_root file_description.

(** Lines 141-239: the [try] block.  The parameter [workspace] is printed,
    then rebound to the current workspace. *)
Definition edit_file_body (E : env) (file_description : string)
  (workspace : pyval) : M text :=
  print [Lit "DEBUG: Getting workspace config for '"; Val workspace;
         Lit "'"] ;;
  workspace <- call ECurrentWorkspace (get_current_workspace E) ;;
  print [Lit "DEBUG: Current workspace: "; Val workspace] ;;
  if py_truthy workspace then
    all_workspaces <- call EWorkspaces (get_workspaces E) ;;
    workspaces <- lift (py_getitem all_workspaces "workspaces") ;;
    workspace_config <- lift (py_get_key workspaces workspace PNone) ;;
    if negb (py_truthy workspace_config) then
      print [Lit "DEBUG: Current workspace '"; Val workspace;
             Lit "' not found in config"] ;;
      ret [Lit "Current workspace '"; Val workspace; Lit "' not found"]
    else
      project_root <- lift (py_getitem workspace_config "path") ;;
      find_and_open E workspace project_root file_description
  else
    find_and_open E workspace (PStr (default_project_root E))
      file_description.

(** Lines 240-242: [except Exception] turns whatever the body raises into
    the generic failure message. *)
Definition report_errors (m : M text) : M text :=
  try_except m (fun _ => true)
    (fun e =>
       print [Lit "DEBUG: Error in edit_file: "; Err e] ;;
       ret [Lit "Error: Could not edit file"]).

(** Lines 135-242: the command. *)
Definition edit_file (E : env) (file_description : string)
  (workspace : pyval) : M text :=
  print [Lit "DEBUG: Starting edit_file command"] ;;
  report_errors (edit_file_body E file_description workspace).

(** ** Vocabulary of the properties *)

Definition is_prompt (ev : event) : bool :=
  match ev with EPrompt _ => true | _ => false end.

Definition is_cache_write (ev : event) : bool :=
  match ev with ECacheRecentFile _ => true | _ => false end.

(** The editor is started by [open_in_editor] or by the shell command. *)
Definition is_launch (ev : event) : bool :=
  match ev with EOpenInEditor _ | ESystem _ => true | _ => false end.

Definition is_service_call (ev : event) : bool :=
  match ev with EJsonPrompt _ => true | _ => false end.

(** Request construction, service invocation (steps 3 and 4). *)
Definition is_matching_step (ev : event) : bool :=
  match ev with
  | ECodebaseStructure _ | EFrameworkPrompt _ _ _ | EJsonPrompt _ => true
  | _ => false
  end.

Definition is_echo (ev : event) : bool :=
  match ev with EEcho _ => true | _ => false end.

(** The lines written with [typer.echo], in order. *)
Definition echoed (t : list event) : list text :=
  flat_map (fun ev => match ev with EEcho x => [x] | _ => [] end) t.

(** Step 1, gathering the context. *)
Definition context_event (ev : event) : bool :=
  match ev with
  | EPrint _ | ECurrentWorkspace | EWorkspaces => true
  | _ => false
  end.

(** What the recent-files request may do. *)
Definition recent_event (ev : event) : bool :=
  match ev with
  | EPrint _ | EEcho _ | EPrompt _ | ESystem _ | ERecentFiles => true
  | _ => false
  end.

(** What ranking and resolution may do. *)
Definition resolution_event (ev : event) : bool :=
  match ev with
  | EPrint _ | EEcho _ | EPrompt _ | ECacheRecentFile _ | EOpenInEditor _ =>
      true
  | _ => false
  end.

(** No event of the trace satisfies [P]. *)
Definition never (P : event -> bool) (t : list event) : Prop :=
  Forall (fun ev => P ev = false) t.

(** Events that neither ask the user, nor write the cache, nor start the
    editor. *)
Definition silent (ev : event) : bool :=
  negb (is_prompt ev || is_cache_write ev || is_launch ev).

(** Every call of [open_in_editor] is on the path of a cache write made just
    before it, with at most debug lines in between; [last] is the path of
    such a write, if one is pending. *)
Fixpoint cache_guards_editor (last : option string) (t : list event) : bool :=
  match t with
  | [] => true
  | EPrint _ :: t' => cache_guards_editor last t'
  | ECacheRecentFile p :: t' => cache_guards_editor (Some p) t'
  | EOpenInEditor p :: t' =>
      match last with
      | Some q => String.eqb p q
      | None => false
      end && cache_guards_editor None t'
  | _ :: t' => cache_guards_editor None t'
  end.

(** Events other than a cache write and an [open_in_editor] call. *)
Definition unguarded (ev : event) : bool :=
  match ev with
  | ECacheRecentFile _ | EOpenInEditor _ => false
  | _ => true
  end.

(** [m] run after the events [pre]. *)
Definition after {A} (pre : list event) (m : M A) : M A :=
  ((pre ++ trace m)%list, outcome m).

(** An entry of the shape the service is asked for: an object whose
    [confidence_score], when present, is a finite number. *)
Definition well_formed_entry (m : pyval) : Prop :=
  exists d, m = PDict d /\
    forall v, dict_lookup "confidence_score" d = Some v -> is_num v = true.

(** The confidence score of [c] is a finite number. *)
Definition numeric (c : candidate) : Prop :=
  is_num (confidence_score c) = true.

(** [a] ranks at least as high as [b]: both confidence scores are finite
    numbers, and that of [b] is not the greater one. *)
Definition score_ge (a b : candidate) : Prop :=
  exists p q, num_val (confidence_score a) = Some p
              /\ num_val (confidence_score b) = Some q
              /\ (q <= p)%Q.

(** The confidence score of [c] is the number [q]. *)
Definition has_score (q : Q) (c : candidate) : bool :=
  match num_val (confidence_score c) with
  | Some p => Qeq_bool p q
  | None => false
  end.

(** A score strictly above the threshold of line 213: plus infinity, or a
    finite number greater than the float 0.9. *)
Definition above_threshold (v : pyval) : Prop :=
  v = PInf false \/ exists q, num_val v = Some q /\ (float_0_9 < q)%Q.

(** A score equal to the threshold. *)
Definition at_threshold (v : pyval) : Prop :=
  exists q, num_val v = Some q /\ (q == float_0_9)%Q.

(** A text of ASCII characters only. *)
Definition is_ascii (s : string) : bool :=
  forallb (fun c => (N_of_ascii c <? 128)%N) (list_ascii_of_string s).

(** A JSON object. *)
Definition is_object (m : pyval) : Prop := exists d, m = PDict d.

(** An object whose [confidence_score], when present, is a number of any
    kind: a [bool], an [int] or a [float], NaN and the infinities among
    them. *)
Definition scored_entry (m : pyval) : Prop :=
  exists d, m = PDict d /\
    forall v, dict_lookup "confidence_score" d = Some v ->
              number_of v <> None.

(** The confidence score of [c] is a number of any kind. *)
Definition comparable (c : candidate) : Prop :=
  number_of (confidence_score c) <> None.

(** A score the menu can show with two decimals: a [bool], a [float], or an
    [int] within the float range. *)
Definition displayable (v : pyval) : bool :=
  match v with
  | PBool _ | PFloat _ | PInf _ | PNan => true
  | PInt z => fits_float z
  | _ => false
  end.

(** An object whose [confidence_score], when present, is a finite number
    that the menu can show. *)
Definition presentable_entry (m : pyval) : Prop :=
  exists d, m = PDict d /\
    forall v, dict_lookup "confidence_score" d = Some v ->
              is_num v = true /\ displayable v = true.

(** The float 0.95, as the binary64 value it denotes. *)
Definition float_0_95 : Q := 4278419646001971 # 4503599627370496.

Definition lookup_or (k : string) (d : list (string * pyval))
  (default : pyval) : pyval :=
  match dict_lookup k d with Some v => v | None => default end.

(** A parsed entry holds each field of the object it was read from, and the
    source's default where the object has no such field. *)
Definition parsed_from (m : pyval) (c : candidate) : Prop :=
  exists o, m = PDict o
    /\ file_path c = lookup_or "file" o (PStr "")
    /\ confidence_score c = lookup_or "confidence_score" o (PFloat float_0_8)
    /\ file_type c = lookup_or "file_type" o (PStr "unknown").

(** ** Sample inputs *)

(** A configuration with the one workspace ["main"]. *)
Definition sample_workspaces : list (string * pyval) :=
  [("main", PDict [("path", PStr "/work/main"); ("frameworks", PDict [])])].

(** Collaborators for the examples: the current workspace is [current], the
    service answers (or fails with) [answer], the cache lists [recent], the
    user types [reply]; everything else succeeds. *)
Definition sample_env (current : pyval) (answer : result pyval)
  (recent : list string) (reply : string) : env := {|
  get_current_workspace := Ok current;
  get_workspaces := Ok (PDict [("workspaces", PDict sample_workspaces)]);
  _get_recent_files := Ok recent;
  get_codebase_structure := fun _ => Ok (PDict []);
  get_framework_specific_prompt := fun _ _ d => Ok (PStr d);
  json_prompt := fun _ => answer;
  _cache_recent_file := fun _ => Ok tt;
  open_in_editor := fun _ => Ok tt;
  prompt := fun _ => Ok reply;
  default_project_root := "/srv/neo-ai"
|}.

(** [{"file": file, "confidence_score": score, "file_type": type}] *)
Definition entry (file : string) (score : pyval) (type : string) : pyval :=
  PDict [("file", PStr file); ("confidence_score", score);
         ("file_type", PStr type)].

Definition results_of (entries : list pyval) : list (string * pyval) :=
  [("results", PList entries)].

(** * The other commands *)

(** A line feed. *)
Definition nl : string := String (ascii_of_nat 10) EmptyString.

(** ** show_config *)

(** What a step of [show_config] comes to: a value, an [ImportError], or any
    other exception. *)
Inductive tried (A : Type) : Type :=
| Got (a : A)
| ImportFailed (msg : string)
| Failed (e : exn).
Arguments Got {A} a.
Arguments ImportFailed {A} msg.
Arguments Failed {A} e.

Definition tbind {A B} (t : tried A) (f : A -> tried B) : tried B :=
  match t with
  | Got a => f a
  | ImportFailed msg => ImportFailed msg
  | Failed e => Failed e
  end.

(** The file system and the two libraries [show_config] goes through:
    [open(path, "r").read()], [yaml.safe_load], [json.dumps(_, indent=2)]. *)
Record config_env : Type := {
  read_file : string -> tried string;
  safe_load : string -> tried pyval;
  dumps_indent2 : pyval -> tried string
}.

(** Lines 49-57: the text to show. *)
Definition config_text (F : config_env) (verbose : bool) : tried string :=
  tbind (read_file F "./assistant_config.yml") (fun config =>
  if verbose then
    tbind (safe_load F config) (fun loaded =>
    tbind (dumps_indent2 F loaded) (fun dumped =>
    Got ("Verbose config:" ++ nl ++ dumped)))
  else Got ("Config: " ++ config)).

(** Lines 41-63: the lines echoed and what the command returns or raises;
    only an [ImportError] is handled. *)
Definition show_config (F : config_env) (verbose : bool)
  : list string * tried string :=
  match config_text F verbose with
  | Got result => ([result], Got result)
  | ImportFailed _ =>
      let result := "Error: Could not load assistant_config module" in
      ([result], Got result)
  | Failed e => ([], Failed e)
  end.

(** ** list_files and compare_files *)

(** [os.path.isdir], [os.path.isfile], [os.listdir], [open(path, "r")] (a
    handle is given by what [readlines()] returns on it) and
    [difflib.unified_diff]. *)
Record fs_env : Type := {
  isdir : string -> bool;
  isfile : string -> bool;
  listdir : string -> result (list string);
  open_text : string -> result (result (list string));
  unified_diff :
    list string -> list string -> string -> string -> list string
}.

(** [not e.startswith(".")] *)
Definition visible (e : string) : bool := negb (String.prefix "." e).

(** Lines 70-88. *)
Definition list_files (F : fs_env) (path : string) (all_files : bool)
  : M text :=
  if negb (isdir F path) then
    let msg := [Lit "Path '"; Lit path; Lit "' is not a valid directory."] in
    echo msg ;; ret msg
  else
    entries <- lift (listdir F path) ;;
    let entries := if all_files then entries else filter visible entries in
    let result := [Lit "Files in '"; Lit path; Lit "': ";
                   Val (PList (map PStr entries))] in
    echo result ;; ret result.

(** The white space of [str.strip()], read off the UTF-8 bytes of the text:
    U+0009-000D, U+001C-001F, U+0020, U+0085, U+00A0, U+1680, U+2000-200A,
    U+2028, U+2029, U+202F, U+205F, U+3000. *)
Fixpoint blank_bytes (l : list nat) : bool :=
  match l with
  | [] => true
  | c :: r =>
      if ((c =? 32) || ((9 <=? c) && (c <=? 13))
          || ((28 <=? c) && (c <=? 31)))%nat
      then blank_bytes r
      else if (c =? 194)%nat then
        match r with
        | d :: r2 => ((d =? 133) || (d =? 160))%nat && blank_bytes r2
        | [] => false
        end
      else if (c =? 225)%nat then
        match r with
        | d :: e :: r3 => ((d =? 154) && (e =? 128))%nat && blank_bytes r3
        | _ => false
        end
      else if (c =? 226)%nat then
        match r with
        | d :: e :: r3 =>
            (((d =? 128)
              && (((128 <=? e) && (e <=? 138)) || (e =? 168) || (e =? 169)
                  || (e =? 175)))
             || ((d =? 129) && (e =? 159)))%nat
            && blank_bytes r3
        | _ => false
        end
      else if (c =? 227)%nat then
        match r with
        | d :: e :: r3 => ((d =? 128) && (e =? 128))%nat && blank_bytes r3
        | _ => false
        end
      else false
  end.

(** [not s.strip()] *)
Definition is_blank (s : string) : bool :=
  blank_bytes (map nat_of_ascii (list_ascii_of_string s)).

(** [line.startswith("+") or line.startswith("-")] *)
Definition marked (line : string) : bool :=
  String.prefix "+" line || String.prefix "-" line.

(** Lines 95-128. *)
Definition compare_files (F : fs_env) (file_a file_b : string)
  (diff_only : bool) : M string :=
  if negb (isfile F file_a) || negb (isfile F file_b) then
    let msg := "One or both files do not exist: " ++ file_a ++ ", "
               ++ file_b in
    echo [Lit msg] ;; ret msg
  else
    fa <- lift (open_text F file_a) ;;
    fb <- lift (open_text F file_b) ;;
    lines_a <- lift fa ;;
    lines_b <- lift fb ;;
    let diff := unified_diff F lines_a lines_b file_a file_b in
    let result :=
      if diff_only then String.concat nl (filter marked diff)
      else String.concat "" diff in
    echo [Lit (if is_blank result then "Files are identical." else result)] ;;
    ret result.

(** ** list_notion_tasks *)

(** [list_tasks] of the Notion integration, and [str.lower], whose case
    mapping covers all of Unicode and is taken as given. *)
Record notion_env : Type := {
  list_tasks : pyval -> result pyval;
  str_lower : string -> string
}.

(** A line on standard output or, with [err=True], on standard error. *)
Inductive out : Type :=
| Stdout (t : text)
| Stderr (t : text).

(** [v.lower()]: only a string has the method. *)
Definition py_lower (N : notion_env) (v : pyval) : result string :=
  match v with
  | PStr s => Ok (str_lower N s)
  | _ => Raise (Builtin AttributeError)
  end.

(** Line 271: is the task left out by the status filter? *)
Definition filtered_out (N : notion_env) (status : option string)
  (task : pyval) : result bool :=
  match status with
  | None => Ok false
  | Some s =>
      if String.eqb s "" then Ok false
      else
        rbind (py_get task "status" (PStr "")) (fun st =>
        rbind (py_lower N st) (fun l =>
        Ok (negb (String.eqb l (str_lower N s)))))
  end.

(** [if task.get(key): items.append(f"{label}{task[key]}")] *)
Definition labelled (label : string) (task : pyval) (key : string)
  : result (list text) :=
  rbind (py_get task key PNone) (fun v =>
  if py_truthy v then
    rbind (py_getitem task key) (fun x => Ok [[Lit label; Val x]])
  else Ok []).

(** [sep.join(items)] *)
Fixpoint join_texts (sep : string) (items : list text) : text :=
  match items with
  | [] => []
  | t :: items' =>
      match items' with
      | [] => t
      | _ :: _ => (t ++ Lit sep :: join_texts sep items')%list
      end
  end.

(** [f"{prefix}{' | '.join(items)}{suffix}"] when [items] is not empty. *)
Definition joined_line (prefix : string) (items : list text)
  (suffix : text) : text :=
  match items with
  | [] => []
  | _ :: _ => (Lit prefix :: join_texts " | " items ++ suffix)%list
  end.

(** Lines 275-309: [task_line]. *)
Definition task_line (task : pyval) : result text :=
  rbind (py_getitem task "title") (fun title =>
  rbind (py_get task "status" (PStr "No status")) (fun st =>
  rbind (labelled "Severity: " task "severity") (fun severity =>
  rbind (labelled "Type: " task "type") (fun type =>
  rbind (labelled "Reporter: " task "reporter") (fun reporter =>
  rbind (labelled "Assigned To: " task "assigned_to") (fun assigned =>
  rbind (labelled "Assigned To: " task "assigned_to") (fun assigned_again =>
  rbind (labelled "Reported: " task "date_reported") (fun reported =>
  rbind (labelled "URL: " task "url") (fun url =>
  let metadata := (severity ++ type)%list in
  let people := (reporter ++ assigned ++ assigned_again)%list in
  let extra := (reported ++ url)%list in
  Ok ([Lit "📌 "; Val title; Lit nl;
       Lit "   └─ Status: "; Val st; Lit nl]
      ++ joined_line "   ├─ " metadata [Lit nl]
      ++ joined_line "   ├─ " people [Lit nl]
      ++ joined_line "   └─ " extra [])%list))))))))).

(** Lines 269-311: one round of the loop. *)
Definition show_task (N : notion_env) (status : option string)
  (task : pyval) : M unit :=
  skip <- lift (filtered_out N status task) ;;
  if skip then ret tt
  else
    line <- lift (task_line task) ;;
    echo (line ++ [Lit nl])%list.

(** Lines 259-311: the [try] block. *)
Definition list_notion_tasks_body (N : notion_env) (database_id : pyval)
  (status : option string) : M unit :=
  tasks <- lift (list_tasks N database_id) ;;
  if negb (py_truthy tasks) then echo [Lit "No tasks found"]
  else
    echo [Lit (nl ++ "=== Notion Tasks ===" ++ nl)] ;;
    items <- lift (py_iter tasks) ;;
    for_each items (show_task N status).

Definition stdout_of (t : list event) : list out :=
  flat_map (fun ev => match ev with EEcho x => [Stdout x] | _ => [] end) t.

(** Lines 249-316: everything the command writes; it returns [None] and
    turns any exception into one line on standard error. *)
Definition list_notion_tasks (N : notion_env) (database_id : pyval)
  (status : option string) : list out :=
  let (t, r) := list_notion_tasks_body N database_id status in
  (stdout_of t ++
   match r with
   | Ok _ => []
   | Raise e =>
       match class_of e with
       | ValueError => [Stderr [Lit "Error: "; Err e]]
       | _ => [Stderr [Lit "Failed to fetch tasks: "; Err e]]
       end
   end)%list.

(** Collaborators with an editor launcher that fails with a [ValueError]. *)
Definition broken_editor_env : env := {|
  get_current_workspace := Ok PNone;
  get_workspaces := Ok (PDict [("workspaces", PDict sample_workspaces)]);
  _get_recent_files := Ok [];
  get_codebase_structure := fun _ => Ok (PDict []);
  get_framework_specific_prompt := fun _ _ d => Ok (PStr d);
  json_prompt := fun _ => Ok PNone;
  _cache_recent_file := fun _ => Ok tt;
  open_in_editor := fun _ => Raise (Raised ValueError "no editor set");
  prompt := fun _ => Ok "1";
  default_project_root := "/srv/neo-ai"
|}.

(** Collaborators whose current workspace ["main"] is configured without a
    ["path"]. *)
Definition pathless_env : env := {|
  get_current_workspace := Ok (PStr "main");
  get_workspaces :=
    Ok (PDict [("workspaces",
                PDict [("main", PDict [("frameworks", PDict [])])])]);
  _get_recent_files := Ok [];
  get_codebase_structure := fun _ => Ok (PDict []);
  get_framework_specific_prompt := fun _ _ d => Ok (PStr d);
  json_prompt := fun _ => Ok PNone;
  _cache_recent_file := fun _ => Ok tt;
  open_in_editor := fun _ => Ok tt;
  prompt := fun _ => Ok "1";
  default_project_root := "/srv/neo-ai"
|}.

(** A message saying that a file was opened is backed by the launch it
    reports. *)
Definition honest (m : M text) : Prop :=
  forall msg, outcome m = Ok msg ->
    (forall p, msg = [Lit "Opened file: "; Lit p] ->
       In (ECacheRecentFile p) (trace m) /\ In (EOpenInEditor p) (trace m))
    /\ (forall t p, msg = [Lit "Opened "; Val t; Lit " file: "; Lit p] ->
         In (ECacheRecentFile p) (trace m) /\ In (EOpenInEditor p) (trace m))
    /\ (forall f, msg = [Lit "========== Opened recent file: "; Lit f] ->
         In (ESystem [Lit "code --goto "; Lit f]) (trace m)).

(** What one task contributes to the listing: nothing when the filter
    leaves it out, its block otherwise. *)
Definition task_output (N : notion_env) (status : option string)
  (task : pyval) (o : list out) : Prop :=
  (filtered_out N status task = Ok true /\ o = [])
  \/ (filtered_out N status task = Ok false
      /\ exists line, task_line task = Ok line
                      /\ o = [Stdout (line ++ [Lit nl])%list]).

Definition notion_heading : out :=
  Stdout [Lit (nl ++ "=== Notion Tasks ===" ++ nl)].

(** A directory [/p] holding [.git], [a.py] and [.env]; two files [a] and
    [b] whose diff is [diff]. *)
Definition sample_fs (diff : list string) : fs_env := {|
  isdir := fun path => String.eqb path "/p";
  isfile := fun path => String.eqb path "a" || String.eqb path "b";
  listdir := fun _ => Ok [".git"; "a.py"; ".env"];
  open_text := fun _ => Ok (Ok []);
  unified_diff := fun _ _ _ _ => diff
|}.

(** A Notion database with the tasks [tasks]; letter case by [lower]. *)
Definition sample_notion (tasks : list pyval) : notion_env := {|
  list_tasks := fun _ => Ok (PList tasks);
  str_lower := lower
|}.

Definition task (title status : string) : pyval :=
  PDict [("title", PStr title); ("status", PStr status)].

(** How many events of the trace satisfy [P]. *)
Definition occurrences (P : event -> bool) (t : list event) : nat :=
  List.length (filter P t).

(** At most one question, one cache write and one editor launch. *)
Definition acts_at_most_once (t : list event) : Prop :=
  (occurrences is_prompt t <= 1)%nat
  /\ (occurrences is_cache_write t <= 1)%nat
  /\ (occurrences is_launch t <= 1)%nat.

(** * Properties *)

(** ** Parsing and ranking *)

Section Ranking.

Local Open Scope Q_scope.

Lemma Qltb_true p q : Qltb p q = true <-> p < q.
Proof.
  unfold Qltb. rewrite negb_true_iff. split; intros H.
  - apply Qnot_le_lt. intros Hle. apply Qle_bool_iff in Hle. congruence.
  - destruct (Qle_bool q p) eqn:E; [|reflexivity].
    apply Qle_bool_iff in E. exfalso. exact (Qlt_not_le _ _ H E).
Qed.

Lemma Qltb_false p q : Qltb p q = false <-> q <= p.
Proof.
  unfold Qltb. rewrite negb_false_iff. apply Qle_bool_iff.
Qed.

Lemma is_num_val v : is_num v = true -> exists q, num_val v = Some q.
Proof.
  unfold is_num. destruct (num_val v) as [q|]; [eauto | discriminate].
Qed.

Lemma py_lt_num a b p q :
  num_val a = Some p -> num_val b = Some q -> py_lt a b = Ok (Qltb p q).
Proof.
  intros Ha Hb.
  destruct a; simpl in Ha; try discriminate;
    destruct b; simpl in Hb; try discriminate;
    injection Ha as <-; injection Hb as <-; reflexivity.
Qed.

Lemma parse_match_dict d :
  parse_match (PDict d) =
  Ok {| file_path :=
          match dict_lookup "file" d with Some v => v | None => PStr "" end;
        confidence_score :=
          match dict_lookup "confidence_score" d with
          | Some v => v
          | None => PFloat float_0_8
          end;
        file_type :=
          match dict_lookup "file_type" d with
          | Some v => v
          | None => PStr "unknown"
          end |}.
Proof. reflexivity. Qed.

Lemma parse_match_numeric m :
  well_formed_entry m -> exists c, parse_match m = Ok c /\ numeric c.
Proof.
  intros (d & -> & Hd). rewrite parse_match_dict. eexists; split; [reflexivity|].
  unfold numeric; simpl.
  destruct (dict_lookup "confidence_score" d) as [v|]; [auto | reflexivity].
Qed.

Lemma parse_all_total raw :
  Forall well_formed_entry raw ->
  exists parsed, parse_all raw = Ok parsed
                 /\ List.length parsed = List.length raw
                 /\ Forall numeric parsed.
Proof.
  induction 1 as [|m raw Hm _ (parsed & Hp & Hlen & Hnum)]; simpl.
  - exists []; auto.
  - destruct (parse_match_numeric m Hm) as (c & -> & Hc). simpl.
    rewrite Hp. simpl. exists (c :: parsed). simpl. auto.
Qed.

Lemma score_ge_trans a b c : score_ge a b -> score_ge b c -> score_ge a c.
Proof.
  intros (p & q & Hp & Hq & Hle) (q' & r & Hq' & Hr & Hle').
  rewrite Hq in Hq'. injection Hq' as <-.
  exists p, r. repeat split; auto. eapply Qle_trans; eauto.
Qed.

(** Inserting into a ranked list of numeric entries: the result is ranked,
    has the same entries, and no two entries of equal score changed places. *)
Lemma insert_desc_spec c l :
  numeric c -> Forall numeric l ->
  exists r, insert_desc c l = Ok r
            /\ Permutation (c :: l) r
            /\ (StronglySorted score_ge l -> StronglySorted score_ge r)
            /\ forall q, filter (has_score q) r = filter (has_score q) (c :: l).
Proof.
  intros Hc Hl. induction Hl as [|d l Hd Hl IH]; simpl.
  - exists [c]. repeat split; auto.
    intros _. constructor; constructor.
  - destruct (is_num_val _ Hc) as (p & Hp), (is_num_val _ Hd) as (q & Hq).
    unfold sort_key. rewrite (py_lt_num _ _ _ _ Hp Hq). simpl.
    destruct (Qltb p q) eqn:Hlt.
    + destruct IH as (r & -> & Hperm & Hsorted & Hfilter). simpl.
      apply Qltb_true in Hlt.
      exists (d :: r). repeat split.
      * rewrite perm_swap. constructor. exact Hperm.
      * intros Hs. inversion Hs as [|? ? Hs' Hall]; subst.
        constructor; [auto|].
        eapply Permutation_Forall; [exact Hperm|].
        constructor; [|exact Hall].
        exists q, p. repeat split; auto. apply Qlt_le_weak; exact Hlt.
      * intros k. simpl. rewrite Hfilter. simpl.
        assert (Ec : has_score k c = Qeq_bool p k)
          by (unfold has_score; rewrite Hp; reflexivity).
        assert (Ed : has_score k d = Qeq_bool q k)
          by (unfold has_score; rewrite Hq; reflexivity).
        rewrite Ec, Ed.
        destruct (Qeq_bool q k) eqn:Eq, (Qeq_bool p k) eqn:Ep; try reflexivity.
        apply Qeq_bool_iff in Eq, Ep. exfalso.
        rewrite Eq, Ep in Hlt. exact (Qlt_irrefl _ Hlt).
    + apply Qltb_false in Hlt.
      exists (c :: d :: l). repeat split; auto.
      intros Hs. constructor; [exact Hs|].
      assert (Hcd : score_ge c d) by (exists p, q; auto).
      constructor; [exact Hcd|].
      inversion Hs as [|? ? _ Hall]; subst.
      eapply Forall_impl; [|exact Hall].
      intros x Hx. eapply score_ge_trans; eauto.
Qed.

Lemma sort_matches_spec l :
  Forall numeric l ->
  exists r, sort_matches l = Ok r
            /\ Permutation l r
            /\ StronglySorted score_ge r
            /\ forall q, filter (has_score q) r = filter (has_score q) l.
Proof.
  induction 1 as [|c l Hc Hl (r & Hr & Hperm & Hsorted & Hfilter)]; simpl.
  - exists []. repeat split; auto. constructor.
  - rewrite Hr. simpl.
    assert (Hnum : Forall numeric r) by (eapply Permutation_Forall; eauto).
    destruct (insert_desc_spec c r Hc Hnum) as (s & Hs & Hp & Hso & Hf).
    exists s. repeat split; auto.
    + rewrite <- Hp. constructor. exact Hperm.
    + intros q. rewrite Hf. simpl. rewrite Hfilter. reflexivity.
Qed.

Lemma parse_all_parsed_from raw parsed :
  parse_all raw = Ok parsed -> Forall2 parsed_from raw parsed.
Proof.
  revert parsed. induction raw as [|m raw IH]; simpl; intros parsed H.
  - injection H as <-. constructor.
  - destruct (parse_match m) as [c|e] eqn:Hm; simpl in H; [|discriminate].
    destruct (parse_all raw) as [cs|e] eqn:Hr; simpl in H; [|discriminate].
    injection H as <-. constructor; [|auto].
    destruct m; try discriminate. rewrite parse_match_dict in Hm.
    injection Hm as <-. exists d. auto.
Qed.

Lemma parse_matches_results d raw :
  dict_lookup "results" d = Some (PList raw) ->
  parse_matches (PDict d) = parse_all raw.
Proof.
  intros H. unfold parse_matches. simpl. rewrite H. reflexivity.
Qed.


(** Every object is parsed, whatever its fields hold. *)
Lemma parse_all_objects raw :
  Forall is_object raw -> exists parsed, parse_all raw = Ok parsed.
Proof.
  induction 1 as [|m raw (o & ->) _ (parsed & Hp)]; cbn [parse_all].
  - exists []. reflexivity.
  - rewrite parse_match_dict, Hp. cbn [rbind]. eauto.
Qed.

Lemma parse_all_comparable raw parsed :
  Forall scored_entry raw -> parse_all raw = Ok parsed ->
  Forall comparable parsed.
Proof.
  intros Hraw. revert parsed.
  induction Hraw as [|m raw (o & -> & Ho) _ IH]; cbn [parse_all];
    intros parsed H.
  - injection H as <-. constructor.
  - rewrite parse_match_dict in H. cbn [rbind] in H.
    destruct (parse_all raw) as [cs|e]; cbn [rbind] in H; [|discriminate H].
    injection H as <-. constructor; [|apply IH; reflexivity].
    unfold comparable. cbn [confidence_score].
    destruct (dict_lookup "confidence_score" o) as [v|];
      [apply Ho; reflexivity | discriminate].
Qed.

Lemma insert_desc_permutation (c : candidate) (l r : list candidate) :
  insert_desc c l = Ok r -> Permutation (c :: l) r.
Proof.
  revert r. induction l as [|d l IH]; intros r H; simpl in H.
  - injection H as <-. apply Permutation_refl.
  - destruct (py_lt (sort_key c) (sort_key d)) as [[|]|e]; simpl in H;
      try discriminate H.
    + destruct (insert_desc c l) as [r'|e]; simpl in H; [|discriminate H].
      injection H as <-. rewrite perm_swap. constructor. apply IH.
      reflexivity.
    + injection H as <-. apply Permutation_refl.
Qed.

Lemma py_lt_numbers a b :
  number_of a <> None -> number_of b <> None -> exists lt, py_lt a b = Ok lt.
Proof.
  intros Ha Hb.
  destruct a; simpl in Ha; try contradiction;
    destruct b; simpl in Hb; try contradiction; simpl; eauto.
Qed.

(** Scores that are all numbers, NaN and the infinities among them, are
    compared without an exception. *)
Lemma insert_desc_total c l :
  comparable c -> Forall comparable l -> exists r, insert_desc c l = Ok r.
Proof.
  intros Hc Hl. induction Hl as [|d l Hd _ (r & Hr)]; simpl; [eauto|].
  unfold sort_key. destruct (py_lt_numbers _ _ Hc Hd) as ([|] & ->); simpl.
  - rewrite Hr. simpl. eauto.
  - eauto.
Qed.

Lemma sort_matches_total l :
  Forall comparable l -> exists r, sort_matches l = Ok r.
Proof.
  induction 1 as [|c l Hc Hl (r & Hr)]; simpl; [eauto|].
  rewrite Hr. simpl. apply insert_desc_total; [exact Hc|].
  assert (Hperm : Permutation l r).
  { clear Hc Hl. revert r Hr. induction l as [|x l IH]; intros r Hr;
      simpl in Hr.
    - injection Hr as <-. constructor.
    - destruct (sort_matches l) as [t|e]; simpl in Hr; [|discriminate Hr].
      rewrite (IH t eq_refl). apply insert_desc_permutation. exact Hr. }
  eapply Permutation_Forall; eauto.
Qed.




(** C5 (amended): every record that is an object is parsed, each field
    taken from the record when it is there, whatever it holds, and the
    default ([""], 0.8, ["unknown"]) put in only when it is absent; and
    parse-and-rank returns for every such list whose confidence scores,
    where present, are numbers. *)
Theorem parse_defaults_when_absent_and_ranks
  (d : list (string * pyval)) (raw : list pyval) :
  dict_lookup "results" d = Some (PList raw) ->
  Forall is_object raw ->
  exists parsed,
    parse_matches (PDict d) = Ok parsed
    /\ Forall2 parsed_from raw parsed
    /\ (Forall scored_entry raw ->
        exists ranked, parse_and_rank (PDict d) = Ok ranked).
Proof.
  intros Hres Hraw.
  destruct (parse_all_objects raw Hraw) as (parsed & Hp).
  assert (Hpm : parse_matches (PDict d) = Ok parsed)
    by (rewrite (parse_matches_results d raw Hres); exact Hp).
  exists parsed. split; [exact Hpm|]. split.
  - apply parse_all_parsed_from. exact Hp.
  - intros Hscored. unfold parse_and_rank. rewrite Hpm. cbn [rbind].
    apply sort_matches_total. eapply parse_all_comparable; eauto.
Qed.

Lemma parse_defaults_when_absent_and_ranks_witness :
  let raw := [PDict []; entry "b.py" PNan "test";
              PDict [("file", PInt 7); ("file_type", PNone)]] in
  exists parsed,
    parse_matches (PDict (results_of raw)) = Ok parsed
    /\ Forall2 parsed_from raw parsed
    /\ exists ranked, parse_and_rank (PDict (results_of raw)) = Ok ranked.
Proof.
  intros raw.
  destruct (parse_defaults_when_absent_and_ranks (results_of raw) raw)
    as (parsed & Hparsed & Hfrom & Hranked).
  - reflexivity.
  - repeat constructor; eexists; reflexivity.
  - exists parsed. split; [exact Hparsed|]. split; [exact Hfrom|].
    apply Hranked.
    repeat constructor; eexists; (split; [reflexivity|]);
      intros v Hv; try discriminate Hv.
    injection Hv as <-. discriminate.
Defined.

(** C5, as stated, fails: a score that is present but not a number is kept,
    not replaced by 0.8, and sorting it against a number raises. *)
Lemma malformed_score_is_kept_and_raises :
  let raw := [PDict [("file", PStr "a.py"); ("confidence_score", PStr "high")];
              entry "b.py" (PFloat (1 # 2)) "module"] in
  parse_matches (PDict (results_of raw)) =
    Ok [ {| file_path := PStr "a.py"; confidence_score := PStr "high";
            file_type := PStr "unknown" |};
         {| file_path := PStr "b.py"; confidence_score := PFloat (1 # 2);
            file_type := PStr "module" |} ]
  /\ parse_and_rank (PDict (results_of raw)) = Raise (Builtin TypeError).
Proof. split; reflexivity. Qed.

End Ranking.

(** ** Traces of the building blocks *)

Section Traces.

Context {A B : Type}.

Lemma bind_ok (t : list event) (a : A) (f : A -> M B) :
  bind (t, Ok a) f = after t (f a).
Proof. unfold bind, after, trace, outcome. destruct (f a). reflexivity. Qed.

Lemma bind_raise (t : list event) (e : exn) (f : A -> M B) :
  bind (t, Raise e) f = (t, Raise e).
Proof. reflexivity. Qed.

Lemma trace_bind (m : M A) (f : A -> M B) :
  trace (bind m f) =
  (trace m ++ match outcome m with
              | Ok a => trace (f a)
              | Raise _ => []
              end)%list.
Proof.
  destruct m as [t [a|e]].
  - rewrite bind_ok. reflexivity.
  - rewrite bind_raise. unfold trace. simpl. rewrite app_nil_r. reflexivity.
Qed.

Lemma outcome_bind (m : M A) (f : A -> M B) :
  outcome (bind m f) =
  match outcome m with
  | Ok a => outcome (f a)
  | Raise e => Raise e
  end.
Proof.
  destruct m as [t [a|e]]; [rewrite bind_ok|]; reflexivity.
Qed.

Lemma trace_after (pre : list event) (m : M A) :
  trace (after pre m) = (pre ++ trace m)%list.
Proof. reflexivity. Qed.

Lemma outcome_after (pre : list event) (m : M A) :
  outcome (after pre m) = outcome m.
Proof. reflexivity. Qed.

Lemma after_after (p q : list event) (m : M A) :
  after p (after q m) = after (p ++ q) m.
Proof. unfold after. simpl. rewrite app_assoc. reflexivity. Qed.

Lemma bind_after (pre : list event) (m : M A) (f : A -> M B) :
  bind (after pre m) f = after pre (bind m f).
Proof.
  destruct m as [t [a|e]]; unfold after; simpl.
  - destruct (f a). simpl. rewrite app_assoc. reflexivity.
  - reflexivity.
Qed.

End Traces.

(** Unfold one sequencing step of a run. *)
Ltac run_step :=
  rewrite ?trace_bind, ?outcome_bind;
  cbn [trace outcome echo print emit call lift ret fst snd app].

Lemma for_each_trace {A} (P : event -> Prop) (l : list A)
  (body : A -> M unit) :
  (forall x, Forall P (trace (body x))) ->
  Forall P (trace (for_each l body)).
Proof.
  intros Hbody. induction l as [|x l IH]; simpl.
  - constructor.
  - rewrite trace_bind. apply Forall_app. split; [apply Hbody|].
    destruct (outcome (body x)); [exact IH | constructor].
Qed.

Lemma try_except_trace {A} (P : event -> Prop) (m : M A) catches h :
  Forall P (trace m) -> (forall e, Forall P (trace (h e))) ->
  Forall P (trace (try_except m catches h)).
Proof.
  intros Hm Hh. destruct m as [t [a|e]]; simpl; [exact Hm|].
  destruct (catches e); [|exact Hm].
  specialize (Hh e). destruct (h e) as [t' r]. simpl.
  apply Forall_app. split; assumption.
Qed.

Lemma py_gt_threshold v :
  py_gt v (PFloat float_0_9) = Ok true <-> above_threshold v.
Proof.
  unfold py_gt, above_threshold. split.
  - intros H. destruct v as [ | b | z | q | [|] | | s | l | d];
      simpl in H; try discriminate; [right | right | right | left];
      try reflexivity;
      injection H as H; apply Qltb_true in H; eexists; split;
      try reflexivity; exact H.
  - intros [-> | (q & Hq & Hlt)]; [reflexivity|].
    rewrite (py_lt_num (PFloat float_0_9) v float_0_9 q eq_refl Hq).
    f_equal. apply Qltb_true. exact Hlt.
Qed.

Lemma py_gt_at_threshold v :
  at_threshold v -> py_gt v (PFloat float_0_9) = Ok false.
Proof.
  intros (q & Hq & Heq). unfold py_gt.
  rewrite (py_lt_num (PFloat float_0_9) v float_0_9 q eq_refl Hq).
  f_equal. apply Qltb_false. rewrite Heq. apply Qle_refl.
Qed.

(** ** The resolution policy *)

Section Resolution.

Variable E : env.

Lemma menu_echoes (matches : list candidate) :
  Forall (fun ev => is_echo ev = true)
    (trace (for_each (enumerate (firstn 5 matches))
              (fun '(i, m) => menu_line i m))).
Proof.
  apply for_each_trace. intros [i m]. unfold menu_line.
  destruct (format_2f (confidence_score m)); repeat constructor.
Qed.

Lemma show_options_trace (root : pyval) (matches : list candidate) :
  exists menu rest,
    Forall (fun ev => is_echo ev = true) menu
    /\ trace (show_options E root matches) =
       (EEcho [Lit "Multiple matches found:"] :: menu ++ rest)%list
    /\ (rest = []
        \/ exists tl, rest = EPrompt [Lit "Which file to edit? (number)"] :: tl).
Proof.
  unfold show_options. run_step. run_step.
  eexists; eexists; split; [apply (menu_echoes matches)|].
  split; [reflexivity|].
  destruct (outcome _); [right | left; reflexivity].
  run_step. eauto.
Qed.

Lemma open_directly_trace (r p : string) (top : candidate) :
  file_path top = PStr p ->
  exists tl,
    trace (open_directly E (PStr r) top) =
      EPrint [Lit "High confidence match found: "; Lit (posix_join r p)]
      :: ECacheRecentFile (posix_join r p) :: tl
    /\ (tl = [] \/ tl = [EOpenInEditor (posix_join r p)]).
Proof.
  intros Hp. unfold open_directly. rewrite Hp. simpl.
  destruct (_cache_recent_file E (posix_join r p)) as [[]|e]; simpl.
  - destruct (open_in_editor E (posix_join r p)) as [[]|e]; simpl; eauto.
  - eauto.
Qed.

(** C1: the top candidate is opened without asking the user exactly when
    its confidence score is strictly greater than 0.9; with every
    collaborator answering, that run writes the cache, starts the editor and
    returns the confirmation; a top score equal to 0.9 starts the menu. *)
Theorem auto_open_iff_above_threshold
  (r p : string) (top : candidate) (rest : list candidate) :
  file_path top = PStr p ->
  let run := resolve E (PStr r) (top :: rest) in
  let path := posix_join r p in
  (above_threshold (confidence_score top) <->
     In (ECacheRecentFile path) (trace run) /\ never is_prompt (trace run))
  /\ (above_threshold (confidence_score top) ->
      _cache_recent_file E path = Ok tt ->
      open_in_editor E path = Ok tt ->
      run = ([EPrint [Lit "High confidence match found: "; Lit path];
              ECacheRecentFile path; EOpenInEditor path],
             Ok [Lit "Opened file: "; Lit path]))
  /\ (at_threshold (confidence_score top) ->
      exists tl,
        trace run = EEcho [Lit "Multiple matches found:"] :: tl).
Proof.
  intros Hp run path. subst run path. unfold resolve.
  split; [split | split].
  - intros Habove. apply py_gt_threshold in Habove. rewrite Habove.
    unfold lift. rewrite bind_ok. rewrite trace_after. simpl.
    destruct (open_directly_trace r p top Hp) as (tl & -> & Htl).
    split; [simpl; auto|].
    unfold never. destruct Htl as [-> | ->]; repeat constructor.
  - intros [Hin Hnever].
    destruct (py_gt (confidence_score top) (PFloat float_0_9))
      as [[|]|e] eqn:Hgt.
    + apply py_gt_threshold. exact Hgt.
    + exfalso. unfold lift in *. rewrite bind_ok, trace_after in Hin, Hnever.
      simpl in Hin, Hnever.
      destruct (show_options_trace (PStr r) (top :: rest))
        as (menu & tl & Hmenu & Htrace & Htl).
      rewrite Htrace in Hin, Hnever.
      destruct Htl as [-> | (tl' & ->)].
      * rewrite app_nil_r in Hin. destruct Hin as [Hin | Hin];
          [discriminate|].
        rewrite Forall_forall in Hmenu. apply Hmenu in Hin. discriminate.
      * unfold never in Hnever. inversion Hnever as [|? ? _ Hn]; subst.
        apply Forall_app in Hn. destruct Hn as [_ Hn].
        inversion Hn as [|? ? Hq _]; subst. discriminate.
    + unfold lift in Hin. rewrite bind_raise in Hin. destruct Hin.
  - intros Habove Hcache Hopen. apply py_gt_threshold in Habove.
    rewrite Habove. unfold lift. rewrite bind_ok.
    unfold open_directly. rewrite Hp. simpl. rewrite Hcache. simpl.
    rewrite Hopen. reflexivity.
  - intros Hat. apply py_gt_at_threshold in Hat. rewrite Hat.
    unfold lift. rewrite bind_ok, trace_after. simpl.
    destruct (show_options_trace (PStr r) (top :: rest))
      as (menu & tl & _ & -> & _).
    eauto.
Qed.

End Resolution.

(** ** Which events each part of the command can produce *)

Lemma bind_Forall {A B} (P : event -> Prop) (m : M A) (f : A -> M B) :
  Forall P (trace m) ->
  (forall a, outcome m = Ok a -> Forall P (trace (f a))) ->
  Forall P (trace (bind m f)).
Proof.
  intros Hm Hf. rewrite trace_bind. apply Forall_app. split; [exact Hm|].
  destruct (outcome m); [apply Hf; reflexivity | constructor].
Qed.

(** Walk down a chain of sequenced steps, leaving the collaborator-dependent
    leaves. *)
Ltac walk :=
  repeat first
    [ apply bind_Forall; [| intros ? ?]
    | apply for_each_trace; intros [? ?]
    | apply try_except_trace; [| intros ?]
    | progress cbn [trace outcome echo print emit call lift ret fst snd]
    | solve [repeat constructor] ].

Lemma recent_files_request_events (E : env) :
  Forall (fun ev => recent_event ev = true) (trace (recent_files_request E)).
Proof.
  unfold recent_files_request, choose_recent. walk.
  destruct a0 as [|f fs]; [walk|]. unfold open_recent. walk.
Qed.

Lemma resolve_events (E : env) (root : pyval) (matches : list candidate) :
  Forall (fun ev => resolution_event ev = true)
    (trace (resolve E root matches)).
Proof.
  unfold resolve. destruct matches as [|top rest]; [walk|]. walk.
  destruct a.
  - unfold open_directly. walk.
  - unfold show_options, menu_line, open_selected. walk.
Qed.

Lemma rank_and_resolve_events (E : env) (root response : pyval) :
  Forall (fun ev => resolution_event ev = true)
    (trace (rank_and_resolve E root response)).
Proof.
  unfold rank_and_resolve. walk. apply resolve_events.
Qed.

(** ** The shape of a whole run *)

Lemma report_errors_ok (t : list event) (msg : text) :
  report_errors (t, Ok msg) = (t, Ok msg).
Proof. reflexivity. Qed.

Lemma report_errors_raise (t : list event) (e : exn) :
  report_errors (t, Raise e) =
  ((t ++ [EPrint [Lit "DEBUG: Error in edit_file: "; Err e]])%list,
   Ok [Lit "Error: Could not edit file"]).
Proof. reflexivity. Qed.

Lemma report_errors_after (pre : list event) (m : M text) :
  report_errors (after pre m) = after pre (report_errors m).
Proof.
  destruct m as [t [a|e]]; unfold after; simpl; [reflexivity|].
  rewrite app_assoc. reflexivity.
Qed.

Lemma after_raise {A} (pre t : list event) (e : exn) :
  @after A pre (t, Raise e) = ((pre ++ t)%list, Raise e).
Proof. reflexivity. Qed.

Lemma after_ok {A} (pre t : list event) (a : A) :
  after pre (t, Ok a) = ((pre ++ t)%list, Ok a).
Proof. reflexivity. Qed.

Lemma call_bind {A B} (ev : event) (r : result A) (f : A -> M B) :
  bind ([ev], r) f = after [ev] (bind ([], r) f).
Proof.
  destruct r as [a|e]; [|reflexivity].
  rewrite !bind_ok, after_after. reflexivity.
Qed.

(** Bring a run into the form [after pre m]. *)
Ltac norm :=
  unfold print, echo, emit, call, lift, ret;
  repeat first
    [ rewrite bind_ok | rewrite bind_raise | rewrite bind_after
    | rewrite after_after | rewrite after_raise | rewrite after_ok ];
  cbn [app].

(** Either the body stops while gathering the context, by an exception or
    with the not-found message, or it goes on to [find_and_open]. *)
Lemma edit_file_body_cases (E : env) (d : string) (w : pyval) :
  (exists pre ws root,
      Forall (fun ev => context_event ev = true) pre
      /\ edit_file_body E d w = after pre (find_and_open E ws root d))
  \/ (exists pre r,
         Forall (fun ev => context_event ev = true) pre
         /\ edit_file_body E d w = (pre, r)
         /\ forall msg, r = Ok msg ->
              exists ws, msg = [Lit "Current workspace '"; Val ws;
                                Lit "' not found"]).
Proof.
  unfold edit_file_body.
  destruct (get_current_workspace E) as [ws|e]; norm.
  2: { right. eexists; eexists. split; [|split; [reflexivity|]].
       - repeat constructor.
       - intros msg H. discriminate H. }
  destruct (py_truthy ws).
  2: { left. eexists; eexists; eexists. split; [|reflexivity].
       repeat constructor. }
  destruct (get_workspaces E) as [all|e]; norm.
  2: { right. eexists; eexists. split; [|split; [reflexivity|]].
       - repeat constructor.
       - intros msg H. discriminate H. }
  destruct (py_getitem all "workspaces") as [wss|e]; norm.
  2: { right. eexists; eexists. split; [|split; [reflexivity|]].
       - repeat constructor.
       - intros msg H. discriminate H. }
  destruct (py_get_key wss ws PNone) as [cfg|e]; norm.
  2: { right. eexists; eexists. split; [|split; [reflexivity|]].
       - repeat constructor.
       - intros msg H. discriminate H. }
  destruct (py_truthy cfg); cbn [negb].
  - destruct (py_getitem cfg "path") as [root|e]; norm.
    + left. eexists; eexists; eexists. split; [|reflexivity].
      repeat constructor.
    + right. eexists; eexists. split; [|split; [reflexivity|]].
      * repeat constructor.
      * intros msg H. discriminate H.
  - norm. right. eexists; eexists. split; [|split; [reflexivity|]].
    + repeat constructor.
    + intros msg H. injection H as <-. eauto.
Qed.

Lemma find_and_open_unfold (E : env) (ws root : pyval) (d : string) :
  find_and_open E ws root d =
  after [EPrint [Lit "DEBUG: Project root set to: "; Val root];
         EPrint [Lit "========== Starting edit_file with: "; Lit d]]
    (if contains "recent" (lower d) then recent_files_request E
     else match_files E ws root d).
Proof. unfold find_and_open. norm. reflexivity. Qed.

Lemma edit_file_unfold (E : env) (d : string) (w : pyval) :
  edit_file E d w =
  after [EPrint [Lit "DEBUG: Starting edit_file command"]]
    (report_errors (edit_file_body E d w)).
Proof. unfold edit_file. norm. reflexivity. Qed.

Lemma report_errors_events (P : event -> Prop) (m : M text) :
  Forall P (trace m) ->
  (forall e, P (EPrint [Lit "DEBUG: Error in edit_file: "; Err e])) ->
  Forall P (trace (report_errors m)).
Proof.
  intros Hm He. destruct m as [t [a|e]]; [exact Hm|].
  rewrite report_errors_raise. apply Forall_app. split; [exact Hm|].
  constructor; [apply He | constructor].
Qed.

Lemma In_Forall_true (Q : event -> bool) (ev : event) (t : list event) :
  In ev t -> Forall (fun x => Q x = true) t -> Q ev = true.
Proof. intros Hin Hall. rewrite Forall_forall in Hall. auto. Qed.

Lemma context_is_silent (pre : list event) :
  Forall (fun ev => context_event ev = true) pre ->
  Forall (fun ev => silent ev = true) pre.
Proof.
  apply Forall_impl. intros [] H; try discriminate H; reflexivity.
Qed.

(** A run that calls the matching service with [p] is, up to that call, a
    sequence of quiet steps, and is decided from there by what the service
    answers. *)
Lemma service_reached (E : env) (d : string) (w p : pyval) :
  In (EJsonPrompt p) (trace (edit_file E d w)) ->
  exists pre root,
    Forall (fun ev => silent ev = true) pre
    /\ contains "recent" (lower d) = false
    /\ edit_file E d w =
       after pre
         (report_errors
            (response <- lift (json_prompt E p) ;;
             rank_and_resolve E root response)).
Proof.
  rewrite edit_file_unfold.
  destruct (edit_file_body_cases E d w)
    as [(pre & ws & root & Hpre & ->) | (pre & r & Hpre & -> & _)].
  - rewrite find_and_open_unfold, after_after.
    destruct (contains "recent" (lower d)) eqn:Hrecent.
    + intros Hin. exfalso.
      rewrite report_errors_after, after_after, trace_after in Hin.
      apply in_app_or in Hin. destruct Hin as [Hin | Hin].
      * assert (H : context_event (EJsonPrompt p) = true).
        { eapply In_Forall_true; [exact Hin|].
          constructor; [reflexivity|].
          apply Forall_app. split; [exact Hpre | repeat constructor]. }
        discriminate H.
      * assert (H : recent_event (EJsonPrompt p) = true).
        { eapply In_Forall_true; [exact Hin|].
          apply report_errors_events;
            [apply recent_files_request_events | reflexivity]. }
        discriminate H.
    + unfold match_files.
      destruct (get_codebase_structure E root) as [cs|e]; norm.
      2: { intros Hin. exfalso. rewrite report_errors_raise in Hin.
           rewrite trace_after in Hin. cbn [trace fst app] in Hin.
           destruct Hin as [Hin | Hin]; [discriminate|].
           repeat (apply in_app_or in Hin; destruct Hin as [Hin | Hin]);
             try (apply (In_Forall_true context_event) with (2 := Hpre)
                    in Hin; discriminate Hin);
             repeat (destruct Hin as [Hin | Hin]; [discriminate|]);
             destruct Hin. }
      destruct (get_framework_specific_prompt E ws cs d) as [pr|e]; norm.
      2: { intros Hin. exfalso. rewrite report_errors_raise in Hin.
           rewrite trace_after in Hin. cbn [trace fst app] in Hin.
           destruct Hin as [Hin | Hin]; [discriminate|].
           repeat (apply in_app_or in Hin; destruct Hin as [Hin | Hin]);
             try (apply (In_Forall_true context_event) with (2 := Hpre)
                    in Hin; discriminate Hin);
             repeat (destruct Hin as [Hin | Hin]; [discriminate|]);
             destruct Hin. }
      rewrite call_bind, after_after, report_errors_after, after_after.
      intros Hin.
      assert (Hp : p = pr).
      { rewrite trace_after in Hin. apply in_app_or in Hin.
        destruct Hin as [Hin | Hin].
        - cbn [app] in Hin. destruct Hin as [Hin | Hin]; [discriminate|].
          repeat (apply in_app_or in Hin; destruct Hin as [Hin | Hin]);
            try (apply (In_Forall_true context_event) with (2 := Hpre)
                   in Hin; discriminate Hin);
            repeat (destruct Hin as [Hin | Hin];
                    [first [discriminate Hin | injection Hin; auto]|]);
            destruct Hin.
        - exfalso.
          assert (H : resolution_event (EJsonPrompt p) = true).
          { eapply In_Forall_true; [exact Hin|].
            apply report_errors_events; [|reflexivity].
            apply bind_Forall; [constructor|].
            intros a _. apply rank_and_resolve_events. }
          discriminate H. }
      subst pr. eexists; exists root. split; [|split; [reflexivity|]].
      2: reflexivity.
      cbn [app]. constructor; [reflexivity|].
      repeat (apply Forall_app; split);
        try (apply context_is_silent; exact Hpre); repeat constructor.
  - intros Hin. exfalso. rewrite trace_after in Hin.
    cbn [app] in Hin. destruct Hin as [Hin | Hin]; [discriminate|].
    assert (H : context_event (EJsonPrompt p) = true).
    { eapply In_Forall_true; [exact Hin|].
      apply report_errors_events; [exact Hpre | reflexivity]. }
    discriminate H.
Qed.

Lemma silent_never (t : list event) :
  Forall (fun ev => silent ev = true) t ->
  never is_prompt t /\ never is_cache_write t /\ never is_launch t.
Proof.
  intros H. unfold never. repeat split;
    (eapply Forall_impl; [|exact H]); intros [] Hs;
    try discriminate Hs; reflexivity.
Qed.

Lemma absent_results_parse_empty (o : list (string * pyval)) :
  dict_lookup "results" o = None -> parse_matches (PDict o) = Ok [].
Proof.
  intros H. unfold parse_matches. simpl. rewrite H. reflexivity.
Qed.

(** ** Service failure and empty answers *)

(** C4: when the call to the matching service raises, the command returns
    the one failure message; it has not written the recent-files cache, has
    not started the editor, and hands no exception to its caller. *)
Theorem service_failure_is_reported
  (E : env) (d : string) (w p : pyval) (e : exn) :
  In (EJsonPrompt p) (trace (edit_file E d w)) ->
  json_prompt E p = Raise e ->
  outcome (edit_file E d w) = Ok [Lit "Error: Could not edit file"]
  /\ never is_cache_write (trace (edit_file E d w))
  /\ never is_launch (trace (edit_file E d w))
  /\ never is_prompt (trace (edit_file E d w)).
Proof.
  intros Hin Hraise.
  destruct (service_reached E d w p Hin) as (pre & root & Hpre & _ & ->).
  rewrite Hraise. unfold lift. rewrite bind_raise, report_errors_raise.
  rewrite after_ok. cbn [outcome trace fst snd app].
  split; [reflexivity|].
  assert (Hall : Forall (fun ev => silent ev = true)
                   (pre ++ [EPrint [Lit "DEBUG: Error in edit_file: ";
                                    Err e]])).
  { apply Forall_app. split; [exact Hpre | repeat constructor]. }
  destruct (silent_never _ Hall) as (Hp & Hc & Hl). auto.
Qed.

(** C6: when the service answers and no candidate is parsed from the answer,
    in particular when the answer has no ["results"] member, the command
    returns the no-match message and never asks the user. *)
Theorem empty_candidates_no_match
  (E : env) (d : string) (w p response : pyval) :
  In (EJsonPrompt p) (trace (edit_file E d w)) ->
  json_prompt E p = Ok response ->
  (parse_matches response = Ok []
   \/ exists o, response = PDict o /\ dict_lookup "results" o = None) ->
  parse_matches response = Ok []
  /\ outcome (edit_file E d w) = Ok [Lit "No matching files found"]
  /\ never is_prompt (trace (edit_file E d w))
  /\ never is_launch (trace (edit_file E d w)).
Proof.
  intros Hin Hok Hempty.
  assert (Hparse : parse_matches response = Ok []).
  { destruct Hempty as [H | (o & -> & H)];
      [exact H | apply absent_results_parse_empty; exact H]. }
  split; [exact Hparse|].
  destruct (service_reached E d w p Hin) as (pre & root & Hpre & _ & ->).
  rewrite Hok. unfold lift. rewrite bind_ok.
  unfold rank_and_resolve. rewrite Hparse. norm.
  unfold sort_matches. norm. unfold resolve. norm.
  rewrite report_errors_ok, after_ok.
  cbn [outcome trace fst snd].
  split; [reflexivity|].
  assert (Hall : Forall (fun ev => silent ev = true)
                   (pre ++ [EPrint [Lit "DeepSeek response: ";
                                    Val response]])).
  { apply Forall_app. split; [exact Hpre | repeat constructor]. }
  destruct (silent_never _ Hall) as (Hp & Hc & Hl). auto.
Qed.

(** ** The recent-files request *)

Lemma matching_step_excluded (Q : event -> bool) (t : list event) :
  (forall ev, Q ev = true -> is_matching_step ev = false) ->
  Forall (fun ev => Q ev = true) t -> never is_matching_step t.
Proof.
  intros HQ. unfold never. apply Forall_impl. exact HQ.
Qed.

Lemma recent_request_no_matching (E : env) (d : string) (w : pyval) :
  contains "recent" (lower d) = true ->
  never is_matching_step (trace (edit_file E d w)).
Proof.
  intros Hrecent.
  apply (matching_step_excluded
           (fun ev => context_event ev || recent_event ev)).
  { intros [] H; try discriminate H; reflexivity. }
  rewrite edit_file_unfold, trace_after. cbn [app].
  constructor; [reflexivity|].
  apply report_errors_events; [|reflexivity].
  destruct (edit_file_body_cases E d w)
    as [(pre & ws & root & Hpre & ->) | (pre & r & Hpre & -> & _)].
  - rewrite find_and_open_unfold, Hrecent, after_after, trace_after.
    repeat (apply Forall_app; split).
    + eapply Forall_impl; [|exact Hpre]. intros ev ->. reflexivity.
    + repeat constructor.
    + eapply Forall_impl; [|apply recent_files_request_events].
      intros ev ->. apply orb_true_r.
  - eapply Forall_impl; [|exact Hpre]. intros ev ->. reflexivity.
Qed.

Lemma echoed_app (t u : list event) :
  echoed (t ++ u) = (echoed t ++ echoed u)%list.
Proof. apply flat_map_app. Qed.

Lemma echoed_quiet (t : list event) :
  Forall (fun ev => is_echo ev = false) t -> echoed t = [].
Proof.
  induction 1 as [|ev t Hev _ IH]; [reflexivity|].
  destruct ev; try discriminate Hev; exact IH.
Qed.

Lemma context_is_not_echoed (pre : list event) :
  Forall (fun ev => context_event ev = true) pre -> echoed pre = [].
Proof.
  intros H. apply echoed_quiet. eapply Forall_impl; [|exact H].
  intros [] Hev; try discriminate Hev; reflexivity.
Qed.

Lemma echoed_listing (l : list (Z * string)) :
  echoed (map (fun '(i, f) => EEcho [Num (i + 1); Lit ". "; Lit f]) l) =
  map (fun '(i, f) => [Num (i + 1); Lit ". "; Lit f]) l.
Proof.
  induction l as [|[i f] l IH]; [reflexivity|].
  cbn [map echoed flat_map app]. f_equal. exact IH.
Qed.

(** After the question, the recent-files request writes only debug lines and
    starts the editor. *)
Lemma choice_is_not_echoed (E : env) (files : list string) (question : text) :
  echoed
    (trace
       (report_errors
          (choice <- lift (prompt E question) ;;
           try_except (open_recent files choice) selection_error
             (fun _ => ret [Lit "========== Invalid selection"])))) = [].
Proof.
  apply echoed_quiet. apply report_errors_events; [|reflexivity].
  unfold open_recent. walk.
Qed.

(** A run that reads the recent-files cache is, up to that read, a sequence
    of quiet steps, and is decided from there by what the cache holds. *)
Lemma recent_reached (E : env) (d : string) (w : pyval) :
  contains "recent" (lower d) = true ->
  In ERecentFiles (trace (edit_file E d w)) ->
  exists pre,
    Forall (fun ev => silent ev = true) pre
    /\ echoed pre = []
    /\ edit_file E d w =
       after pre
         (report_errors
            (files <- lift (_get_recent_files E) ;; choose_recent E files)).
Proof.
  intros Hrecent. rewrite edit_file_unfold.
  destruct (edit_file_body_cases E d w)
    as [(pre & ws & root & Hpre & ->) | (pre & r & Hpre & -> & _)].
  - intros _. rewrite find_and_open_unfold, Hrecent.
    unfold recent_files_request. norm.
    rewrite call_bind. norm.
    rewrite report_errors_after, after_after.
    eexists. split; [|split; [|reflexivity]].
    + cbn [app]. constructor; [reflexivity|].
      repeat (apply Forall_app; split);
        try (apply context_is_silent; exact Hpre); repeat constructor.
    + cbn [app echoed flat_map]. rewrite !echoed_app.
      rewrite (context_is_not_echoed pre Hpre). reflexivity.
  - intros Hin. exfalso. rewrite trace_after in Hin.
    cbn [app] in Hin. destruct Hin as [Hin | Hin]; [discriminate|].
    assert (H : context_event ERecentFiles = true).
    { eapply In_Forall_true; [exact Hin|].
      apply report_errors_events; [exact Hpre | reflexivity]. }
    discriminate H.
Qed.

Lemma listing_run (l : list (Z * string)) :
  for_each l (fun '(i, f) => echo [Num (i + 1); Lit ". "; Lit f]) =
  (map (fun '(i, f) => EEcho [Num (i + 1); Lit ". "; Lit f]) l, Ok tt).
Proof.
  induction l as [|[i f] l IH]; [reflexivity|].
  cbn [for_each map]. rewrite IH. reflexivity.
Qed.

Lemma enumerate_from_nth {A} (l : list A) (start : Z) (i : nat) (x : A) :
  nth_error l i = Some x ->
  In (start + Z.of_nat i, x) (enumerate_from start l).
Proof.
  revert start i. induction l as [|y l IH]; intros start [|i] H;
    simpl in H; try discriminate.
  - injection H as ->. left. f_equal. lia.
  - right. replace (start + Z.of_nat (S i)) with ((start + 1) + Z.of_nat i)
      by lia. apply IH. exact H.
Qed.

Lemma py_index_in_range {A} (l : list A) (i : Z) (x : A) :
  0 <= i -> nth_error l (Z.to_nat i) = Some x -> py_index l i = Ok x.
Proof.
  intros Hi Hx. unfold py_index.
  assert (Hlen : (Z.to_nat i < List.length l)%nat)
    by (apply nth_error_Some; congruence).
  destruct (i <? 0) eqn:Hneg; [apply Z.ltb_lt in Hneg; lia|].
  assert (H0 : (0 <=? i) = true) by (apply Z.leb_le; lia).
  assert (H1 : (i <? Z.of_nat (List.length l)) = true)
    by (apply Z.ltb_lt; lia).
  rewrite H0, H1, Hx. reflexivity.
Qed.

Lemma try_except_ok {A} (t : list event) (a : A) catches h :
  try_except (t, Ok a) catches h = (t, Ok a).
Proof. reflexivity. Qed.

(** C7 (amended): a description containing "recent" in any letter case never
    reaches request construction or the matching service.  Once the cache
    has been read: an empty cache ends the run with its own message, with no
    question and no editor; of a non-empty cache the first five entries, and
    no more, are listed under the heading, numbered from 1, these being all
    the lines the run writes for the user, and then, not before, the user is
    asked for a number; a reply naming a listed entry starts the editor on
    that path. *)
Theorem recent_request_bypasses_matching
  (E : env) (d : string) (w : pyval) (files : list string) :
  contains "recent" (lower d) = true ->
  let run := edit_file E d w in
  let question := [Lit "Which file to open? (number)"] in
  never is_matching_step (trace run)
  /\ (In ERecentFiles (trace run) ->
      _get_recent_files E = Ok files ->
      match files with
      | [] =>
          outcome run = Ok [Lit "========== No recent files found"]
          /\ never is_prompt (trace run)
          /\ never is_launch (trace run)
      | _ :: _ =>
          In (EEcho [Lit "Recent files:"]) (trace run)
          /\ (forall i f,
                 nth_error (firstn 5 files) i = Some f ->
                 In (EEcho [Num (Z.of_nat i + 1); Lit ". "; Lit f])
                    (trace run))
          /\ echoed (trace run) =
             [Lit "Recent files:"]
             :: map (fun '(i, f) => [Num (i + 1); Lit ". "; Lit f])
                  (enumerate (firstn 5 files))
          /\ (exists before rest,
                 never is_prompt before
                 /\ trace run =
                    (before
                     ++ EEcho [Lit "Recent files:"]
                        :: map (fun '(i, f) =>
                                  EEcho [Num (i + 1); Lit ". "; Lit f])
                             (enumerate (firstn 5 files))
                     ++ EPrompt question :: rest)%list)
          /\ In (EPrompt question) (trace run)
          /\ (forall reply n f,
                 prompt E question = Ok reply ->
                 py_int reply = Ok n ->
                 1 <= n <= 5 ->
                 nth_error files (Z.to_nat (n - 1)) = Some f ->
                 In (ESystem [Lit "code --goto "; Lit f]) (trace run)
                 /\ outcome run =
                    Ok [Lit "========== Opened recent file: "; Lit f])
      end).
Proof.
  intros Hrecent run question.
  split; [apply recent_request_no_matching; exact Hrecent|].
  intros Hin Hfiles. subst run.
  destruct (recent_reached E d w Hrecent Hin) as (pre & Hpre & Hquiet & ->).
  rewrite Hfiles. unfold lift. rewrite bind_ok.
  destruct files as [|f0 fs].
  - unfold choose_recent. norm. rewrite report_errors_ok, after_ok.
    cbn [outcome trace fst snd]. rewrite app_nil_r.
    split; [reflexivity|].
    destruct (silent_never _ Hpre) as (Hp & _ & Hl). auto.
  - unfold choose_recent. rewrite listing_run. norm.
    rewrite call_bind. norm.
    rewrite report_errors_after, after_after, trace_after, outcome_after.
    fold question.
    set (shown := map (fun '(i, f) => EEcho [Num (i + 1); Lit ". "; Lit f])
                    (enumerate (firstn 5 (f0 :: fs)))).
    split; [|split; [|split; [|split; [|split]]]].
    + apply in_or_app. left. apply in_or_app. right.
      left. reflexivity.
    + intros i f Hnth.
      apply in_or_app. left. apply in_or_app. right. right.
      apply in_or_app. left. subst shown.
      apply (in_map (fun '(i, f) => EEcho [Num (i + 1); Lit ". "; Lit f])
               _ (Z.of_nat i, f)).
      apply (enumerate_from_nth _ 0 i f Hnth).
    + pose proof (choice_is_not_echoed E (f0 :: fs) question) as Hrest.
      unfold lift, ret in Hrest.
      rewrite echoed_app, Hrest, app_nil_r, echoed_app, Hquiet.
      cbn [app echoed flat_map]. fold (echoed (shown ++ [EPrompt question])).
      rewrite echoed_app. subst shown. rewrite echoed_listing.
      cbn [echoed flat_map app]. rewrite app_nil_r. reflexivity.
    + exists pre. eexists. split; [apply (silent_never _ Hpre)|].
      rewrite <- app_assoc. cbn [app]. rewrite <- app_assoc. reflexivity.
    + apply in_or_app. left. apply in_or_app. right. right.
      apply in_or_app. right. left. reflexivity.
    + intros reply n f Hreply Hint Hn Hnth.
      rewrite Hreply, bind_ok. unfold open_recent, lift.
      rewrite Hint, bind_ok.
      rewrite (py_index_in_range (f0 :: fs) (n - 1) f); [|lia|exact Hnth].
      norm. rewrite try_except_ok, after_ok, report_errors_ok.
      split; [|reflexivity].
      apply in_or_app. right. right. left. reflexivity.
Qed.

(** ** Runs on sample inputs *)

Ltac in_list := repeat first [left; reflexivity | right].

Lemma auto_open_iff_above_threshold_witness :
  resolve (sample_env PNone (Ok PNone) [] "1") (PStr "/srv/neo-ai")
    [ {| file_path := PStr "a.py"; confidence_score := PInt 1;
         file_type := PStr "module" |} ] =
  ([EPrint [Lit "High confidence match found: "; Lit "/srv/neo-ai/a.py"];
    ECacheRecentFile "/srv/neo-ai/a.py"; EOpenInEditor "/srv/neo-ai/a.py"],
   Ok [Lit "Opened file: "; Lit "/srv/neo-ai/a.py"]).
Proof.
  apply (proj1 (proj2
           (auto_open_iff_above_threshold
              (sample_env PNone (Ok PNone) [] "1") "/srv/neo-ai" "a.py"
              {| file_path := PStr "a.py"; confidence_score := PInt 1;
                 file_type := PStr "module" |} [] eq_refl))).
  - right. exists (inject_Z 1). split; reflexivity.
  - reflexivity.
  - reflexivity.
Defined.

Lemma service_failure_is_reported_witness :
  let E := sample_env PNone (Raise (Raised OtherException "timed out")) []
             "1" in
  outcome (edit_file E "auth middleware" PNone) =
    Ok [Lit "Error: Could not edit file"]
  /\ never is_cache_write (trace (edit_file E "auth middleware" PNone))
  /\ never is_launch (trace (edit_file E "auth middleware" PNone))
  /\ never is_prompt (trace (edit_file E "auth middleware" PNone)).
Proof.
  intros E.
  apply (service_failure_is_reported E "auth middleware" PNone
           (PStr "auth middleware") (Raised OtherException "timed out")).
  - vm_compute. in_list.
  - reflexivity.
Defined.

Lemma empty_candidates_no_match_witness :
  let E := sample_env PNone (Ok (PDict [("note", PStr "nothing found")])) []
             "1" in
  parse_matches (PDict [("note", PStr "nothing found")]) = Ok []
  /\ outcome (edit_file E "auth middleware" PNone) =
     Ok [Lit "No matching files found"]
  /\ never is_prompt (trace (edit_file E "auth middleware" PNone))
  /\ never is_launch (trace (edit_file E "auth middleware" PNone)).
Proof.
  intros E.
  apply (empty_candidates_no_match E "auth middleware" PNone
           (PStr "auth middleware")).
  - vm_compute. in_list.
  - reflexivity.
  - right. eexists. split; reflexivity.
Defined.

Lemma recent_request_bypasses_matching_witness :
  let files := ["1.py"; "2.py"; "3.py"; "4.py"; "5.py"; "6.py"] in
  let E := sample_env PNone (Ok PNone) files "2" in
  let run := edit_file E "my Recent files" PNone in
  echoed (trace run) =
    [[Lit "Recent files:"];
     [Num 1; Lit ". "; Lit "1.py"]; [Num 2; Lit ". "; Lit "2.py"];
     [Num 3; Lit ". "; Lit "3.py"]; [Num 4; Lit ". "; Lit "4.py"];
     [Num 5; Lit ". "; Lit "5.py"]]
  /\ In (ESystem [Lit "code --goto "; Lit "2.py"]) (trace run)
  /\ outcome run = Ok [Lit "========== Opened recent file: "; Lit "2.py"].
Proof.
  intros files E run.
  assert (Hread : In ERecentFiles (trace run)) by (vm_compute; in_list).
  assert (Hn : 1 <= 2 <= 5) by lia.
  destruct (proj2 (recent_request_bypasses_matching E "my Recent files"
                     PNone files eq_refl) Hread eq_refl)
    as (_ & _ & Hlisting & _ & _ & Hopen).
  split; [exact Hlisting|].
  exact (Hopen "2" 2 "2.py" eq_refl eq_refl Hn eq_refl).
Defined.

(** C7, as stated, fails: with nothing in the cache the request lists
    nothing, asks nothing and starts no editor. *)
Lemma recent_request_with_empty_cache :
  let run := edit_file (sample_env PNone (Ok PNone) [] "1") "recent" PNone in
  contains "recent" (lower "recent") = true
  /\ outcome run = Ok [Lit "========== No recent files found"]
  /\ never is_prompt (trace run)
  /\ never is_launch (trace run).
Proof. vm_compute. repeat split; repeat constructor. Qed.

(** C3 fails on the code: a reply of 0 is not rejected; it reaches the last
    entry of the list, both among the candidates and among the recent
    files; and a reply beyond the five entries shown still opens a file. *)
Theorem reply_zero_opens_last_entry :
  let answer := PDict (results_of
                  [entry "a.py" (PFloat (1 # 2)) "module";
                   entry "b.py" (PFloat (1 # 4)) "test"]) in
  let by_service :=
    edit_file (sample_env PNone (Ok answer) [] "0") "auth middleware" PNone in
  let by_recent :=
    edit_file (sample_env PNone (Ok answer) ["x.py"; "y.py"] "0")
      "recent" PNone in
  let unlisted :=
    edit_file (sample_env PNone (Ok answer)
                 ["1.py"; "2.py"; "3.py"; "4.py"; "5.py"; "6.py"] "6")
      "recent" PNone in
  py_int "0" = Ok 0
  /\ outcome by_service =
     Ok [Lit "Opened "; Val (PStr "test"); Lit " file: ";
         Lit "/srv/neo-ai/b.py"]
  /\ In (EOpenInEditor "/srv/neo-ai/b.py") (trace by_service)
  /\ outcome by_recent = Ok [Lit "========== Opened recent file: "; Lit "y.py"]
  /\ In (ESystem [Lit "code --goto "; Lit "y.py"]) (trace by_recent)
  /\ ~ In (EEcho [Num 6; Lit ". "; Lit "6.py"]) (trace unlisted)
  /\ In (ESystem [Lit "code --goto "; Lit "6.py"]) (trace unlisted).
Proof.
  vm_compute. repeat split; try solve [in_list].
  intros H. repeat (destruct H as [H | H]; [discriminate H|]). exact H.
Qed.

(** C8 fails on the code: opening a file through the recent-files request
    starts the editor without any write to the cache. *)
Theorem recent_open_skips_cache :
  let run :=
    edit_file (sample_env PNone (Ok PNone) ["x.py"; "y.py"] "1")
      "recent" PNone in
  outcome run = Ok [Lit "========== Opened recent file: "; Lit "x.py"]
  /\ In (ESystem [Lit "code --goto "; Lit "x.py"]) (trace run)
  /\ never is_cache_write (trace run).
Proof.
  vm_compute. repeat split; try solve [in_list]. repeat constructor.
Qed.

(** C9 fails on the code: the workspace named by the option is never looked
    up; with ["ghost"] requested and only ["main"] configured, the command
    goes on in the current workspace. *)
Theorem named_workspace_is_ignored :
  let E := sample_env (PStr "main") (Ok (PDict (results_of []))) [] "1" in
  let run := edit_file E "auth middleware" (PStr "ghost") in
  dict_lookup "ghost" sample_workspaces = None
  /\ In (ECodebaseStructure (PStr "/work/main")) (trace run)
  /\ In (EJsonPrompt (PStr "auth middleware")) (trace run)
  /\ outcome run = Ok [Lit "No matching files found"].
Proof. vm_compute. repeat split; in_list. Qed.

(** ** The workspace option *)

(** C10 (amended): the option value reaches one debug line and nothing else;
    the rest of the trace and the returned message are the same for every
    value of the option. *)
Theorem workspace_option_only_printed (E : env) (d : string) :
  exists rest result,
    forall w,
      edit_file E d w =
      (EPrint [Lit "DEBUG: Starting edit_file command"]
       :: EPrint [Lit "DEBUG: Getting workspace config for '"; Val w;
                  Lit "'"]
       :: rest, result).
Proof.
  eexists; eexists. intros w.
  rewrite edit_file_unfold. unfold edit_file_body. norm.
  rewrite report_errors_after, after_after.
  unfold after. cbn [app]. reflexivity.
Qed.

(** C10, as stated, fails: two runs that differ only in the option write
    different lines. *)
Lemma workspace_option_shows_in_output :
  let E := sample_env PNone (Ok (PDict (results_of []))) [] "1" in
  trace (edit_file E "auth middleware" (PStr "main"))
  <> trace (edit_file E "auth middleware" (PStr "ghost")).
Proof. vm_compute. intros H. discriminate H. Qed.

(** ** What the code does where C3, C8 and C9 fail *)

Lemma py_int_raises (s : string) (e : exn) :
  py_int s = Raise e -> e = Builtin ValueError.
Proof.
  unfold py_int.
  destruct (code_points _) as [cs|];
    [|intros H; injection H as <-; reflexivity].
  destruct (signed_digits _) as [z|];
    [|intros H; injection H as <-; reflexivity].
  destruct (_ <=? _)%nat; intros H;
    [discriminate H | injection H as <-; reflexivity].
Qed.

(** [int] skips a no-break space, reads the digits of other scripts (here
    Arabic-Indic and fullwidth), and refuses more than 4300 digits. *)
Lemma py_int_beyond_ascii :
  py_int (String (ascii_of_nat 194) (String (ascii_of_nat 160) "2")) = Ok 2
  /\ py_int "٢" = Ok 2
  /\ py_int "-１２" = Ok (-12)
  /\ py_int (String.concat "" (repeat "0" 4300)) = Ok 0
  /\ py_int (String.concat "" (repeat "0" 4301)) = Raise (Builtin ValueError).
Proof. vm_compute. repeat split; reflexivity. Qed.

Lemma py_index_out_of_range {A} (l : list A) (i : Z) :
  Z.of_nat (List.length l) <= i \/ i < - Z.of_nat (List.length l) ->
  py_index l i = Raise (Builtin IndexError).
Proof.
  intros Hi. unfold py_index.
  destruct (i <? 0) eqn:Hneg.
  - apply Z.ltb_lt in Hneg.
    assert (H : (0 <=? i + Z.of_nat (List.length l)) = false)
      by (apply Z.leb_gt; lia).
    rewrite H. reflexivity.
  - apply Z.ltb_ge in Hneg.
    assert (H : (i <? Z.of_nat (List.length l)) = false)
      by (apply Z.ltb_ge; lia).
    rewrite H, andb_false_r. reflexivity.
Qed.

(** The replies the selection does reject: ASCII text that [int] cannot
    read, a number above the length of the whole list, and a number at or
    below minus that length.  Nothing is opened and the cache is not
    written. *)
Lemma unusable_reply_is_rejected
  (E : env) (root : pyval) (matches : list candidate) (reply : string) :
  (is_ascii reply = true /\ exists e, py_int reply = Raise e)
  \/ (exists n, py_int reply = Ok n
                /\ (Z.of_nat (List.length matches) < n
                    \/ n <= - Z.of_nat (List.length matches))) ->
  try_except (open_selected E root matches reply) selection_error
    (fun _ => ret [Lit "Invalid selection"])
  = ([], Ok [Lit "Invalid selection"]).
Proof.
  intros [(_ & e & He) | (n & Hn & Hrange)]; unfold open_selected.
  - rewrite He. rewrite (py_int_raises _ _ He). reflexivity.
  - rewrite Hn. unfold lift. rewrite bind_ok.
    rewrite py_index_out_of_range by lia. reflexivity.
Qed.

(** The same for the recent-files request: ASCII text that [int] cannot
    read, a number above the number of cached files, or one at or below
    minus that number is answered with the invalid-selection message, and
    nothing is launched. *)
Lemma unusable_reply_is_rejected_recent (files : list string)
  (reply : string) :
  (is_ascii reply = true /\ exists e, py_int reply = Raise e)
  \/ (exists n, py_int reply = Ok n
                /\ (Z.of_nat (List.length files) < n
                    \/ n <= - Z.of_nat (List.length files))) ->
  try_except (open_recent files reply) selection_error
    (fun _ => ret [Lit "========== Invalid selection"])
  = ([], Ok [Lit "========== Invalid selection"]).
Proof.
  intros [(_ & e & He) | (n & Hn & Hrange)]; unfold open_recent.
  - rewrite He. rewrite (py_int_raises _ _ He). reflexivity.
  - rewrite Hn. unfold lift. rewrite bind_ok.
    rewrite py_index_out_of_range by lia. reflexivity.
Qed.

(** The check the code does make: a current workspace that is set and has
    no usable entry in the configuration ends the run with the message. *)
Lemma current_workspace_not_found
  (E : env) (d : string) (w ws all wss cfg : pyval) :
  get_current_workspace E = Ok ws ->
  py_truthy ws = true ->
  get_workspaces E = Ok all ->
  py_getitem all "workspaces" = Ok wss ->
  py_get_key wss ws PNone = Ok cfg ->
  py_truthy cfg = false ->
  edit_file E d w =
  ([EPrint [Lit "DEBUG: Starting edit_file command"];
    EPrint [Lit "DEBUG: Getting workspace config for '"; Val w; Lit "'"];
    ECurrentWorkspace;
    EPrint [Lit "DEBUG: Current workspace: "; Val ws];
    EWorkspaces;
    EPrint [Lit "DEBUG: Current workspace '"; Val ws;
            Lit "' not found in config"]],
   Ok [Lit "Current workspace '"; Val ws; Lit "' not found"]).
Proof.
  intros Hws Htruthy Hall Hwss Hcfg Hfalsy.
  rewrite edit_file_unfold. unfold edit_file_body.
  rewrite Hws. norm. rewrite Htruthy, Hall. norm.
  rewrite Hwss. norm. rewrite Hcfg. norm. rewrite Hfalsy.
  cbn [negb]. norm. reflexivity.
Qed.

(** ** Cache writes and [open_in_editor] *)

Lemma guards_unguarded_prefix (pre t : list event) :
  Forall (fun ev => unguarded ev = true) pre ->
  cache_guards_editor None (pre ++ t) = cache_guards_editor None t.
Proof.
  induction 1 as [|ev pre Hev _ IH]; [reflexivity|].
  destruct ev; try discriminate Hev; exact IH.
Qed.

Lemma guards_unguarded (t : list event) :
  Forall (fun ev => unguarded ev = true) t ->
  cache_guards_editor None t = true.
Proof.
  intros H. rewrite <- (app_nil_r t).
  rewrite guards_unguarded_prefix by exact H. reflexivity.
Qed.

Lemma guards_print_suffix (t : list event) (x : text) (last : option string) :
  cache_guards_editor last (t ++ [EPrint x]) = cache_guards_editor last t.
Proof.
  revert last. induction t as [|ev t IH]; intros last; [reflexivity|].
  destruct ev; cbn [app cache_guards_editor]; rewrite ?IH; reflexivity.
Qed.

Lemma guards_report_errors (m : M text) :
  cache_guards_editor None (trace (report_errors m)) =
  cache_guards_editor None (trace m).
Proof.
  destruct m as [t [a|e]]; [reflexivity|].
  rewrite report_errors_raise. apply guards_print_suffix.
Qed.

Lemma open_directly_guarded (E : env) (root : pyval) (top : candidate) :
  cache_guards_editor None (trace (open_directly E root top)) = true.
Proof.
  unfold open_directly.
  destruct (path_join root (file_path top)) as [p|e]; [|reflexivity].
  norm.
  destruct (_cache_recent_file E p) as [[]|e]; [|reflexivity].
  norm.
  destruct (open_in_editor E p) as [[]|e]; norm;
    cbn; rewrite String.eqb_refl; reflexivity.
Qed.

Lemma open_selected_guarded (E : env) (root : pyval)
  (matches : list candidate) (choice : string) (msg : text) :
  cache_guards_editor None
    (trace (try_except (open_selected E root matches choice) selection_error
              (fun _ => ret msg))) = true.
Proof.
  assert (Hstop : forall t e,
             cache_guards_editor None t = true ->
             cache_guards_editor None
               (trace (try_except (t, Raise e) selection_error
                         (fun _ => ret msg))) = true).
  { intros t e Ht. cbn [try_except]. destruct (selection_error e);
      cbn [ret trace fst]; rewrite ?app_nil_r; exact Ht. }
  unfold open_selected.
  destruct (py_int choice) as [n|e]; norm; [|apply Hstop; reflexivity].
  destruct (py_index matches (n - 1)) as [c|e]; norm;
    [|apply Hstop; reflexivity].
  destruct (path_join root (file_path c)) as [p|e]; norm;
    [|apply Hstop; reflexivity].
  destruct (_cache_recent_file E p) as [[]|e]; norm;
    [|apply Hstop; reflexivity].
  destruct (open_in_editor E p) as [[]|e]; norm.
  - cbn. rewrite String.eqb_refl. reflexivity.
  - apply Hstop. cbn. rewrite String.eqb_refl. reflexivity.
Qed.

Lemma show_options_guarded (E : env) (root : pyval)
  (matches : list candidate) :
  cache_guards_editor None (trace (show_options E root matches)) = true.
Proof.
  unfold show_options. run_step. cbn [cache_guards_editor].
  run_step. rewrite guards_unguarded_prefix.
  2: { eapply Forall_impl; [|apply menu_echoes].
       intros [] H; try discriminate H; reflexivity. }
  destruct (outcome _); [|reflexivity].
  run_step. cbn [cache_guards_editor].
  destruct (prompt E _) as [choice|e]; [|reflexivity].
  apply open_selected_guarded.
Qed.

Lemma resolve_guarded (E : env) (root : pyval) (matches : list candidate) :
  cache_guards_editor None (trace (resolve E root matches)) = true.
Proof.
  unfold resolve. destruct matches as [|top rest]; [reflexivity|].
  destruct (py_gt (confidence_score top) (PFloat float_0_9)) as [[|]|e];
    norm; rewrite ?trace_after; cbn [app].
  - apply open_directly_guarded.
  - apply show_options_guarded.
  - reflexivity.
Qed.

Lemma rank_and_resolve_guarded (E : env) (root response : pyval) :
  cache_guards_editor None (trace (rank_and_resolve E root response)) = true.
Proof.
  unfold rank_and_resolve.
  destruct (parse_matches response) as [parsed|e]; norm; [|reflexivity].
  destruct (sort_matches parsed) as [ranked|e]; norm; [|reflexivity].
  rewrite trace_after. cbn [app cache_guards_editor].
  apply resolve_guarded.
Qed.

Lemma match_files_guarded (E : env) (ws root : pyval) (d : string) :
  cache_guards_editor None (trace (match_files E ws root d)) = true.
Proof.
  unfold match_files.
  destruct (get_codebase_structure E root) as [cs|e]; norm; [|reflexivity].
  destruct (get_framework_specific_prompt E ws cs d) as [p|e]; norm;
    [|reflexivity].
  destruct (json_prompt E p) as [response|e]; norm; [|reflexivity].
  rewrite trace_after. cbn [app cache_guards_editor].
  apply rank_and_resolve_guarded.
Qed.

(** On every run, [open_in_editor] is only ever called on the path that was
    written to the cache just before.  (The recent-files request starts the
    editor through the shell instead, and writes nothing.) *)
Lemma editor_opens_what_was_cached (E : env) (d : string) (w : pyval) :
  cache_guards_editor None (trace (edit_file E d w)) = true.
Proof.
  rewrite edit_file_unfold, trace_after. cbn [app cache_guards_editor].
  rewrite guards_report_errors.
  destruct (edit_file_body_cases E d w)
    as [(pre & ws & root & Hpre & ->) | (pre & r & Hpre & -> & _)].
  - rewrite find_and_open_unfold, after_after, trace_after.
    rewrite guards_unguarded_prefix.
    2: { apply Forall_app. split; [|repeat constructor].
         eapply Forall_impl; [|exact Hpre].
         intros [] H; try discriminate H; reflexivity. }
    destruct (contains "recent" (lower d)).
    + apply guards_unguarded.
      eapply Forall_impl; [|apply recent_files_request_events].
      intros [] H; try discriminate H; reflexivity.
    + apply match_files_guarded.
  - apply guards_unguarded. eapply Forall_impl; [|exact Hpre].
    intros [] H; try discriminate H; reflexivity.
Qed.

(** * Further properties of [edit_file] *)

Lemma py_index_from_end {A} (l : list A) (i : Z) (x : A) :
  i < 0 -> 0 <= i + Z.of_nat (List.length l) ->
  nth_error l (Z.to_nat (i + Z.of_nat (List.length l))) = Some x ->
  py_index l i = Ok x.
Proof.
  intros Hneg Hlow Hx. unfold py_index.
  assert (Hlen : (Z.to_nat (i + Z.of_nat (List.length l))
                  < List.length l)%nat)
    by (apply nth_error_Some; congruence).
  assert (H0 : (i <? 0) = true) by (apply Z.ltb_lt; exact Hneg).
  assert (H1 : (0 <=? i + Z.of_nat (List.length l)) = true)
    by (apply Z.leb_le; exact Hlow).
  assert (H2 : (i + Z.of_nat (List.length l) <? Z.of_nat (List.length l))
               = true) by (apply Z.ltb_lt; lia).
  rewrite H0, H1, H2, Hx. reflexivity.
Qed.

(** The selection is Python indexing on the whole list of matches: a reply
    [n >= 1] picks the [n]-th ranked candidate, shown in the menu or not; a
    reply [n <= 0] above minus the length picks from the end; with the
    collaborators answering, the candidate's path is cached, opened and
    reported. *)
Theorem selection_follows_python_indexing
  (E : env) (r reply p : string) (matches : list candidate) (n : Z)
  (c : candidate) :
  py_int reply = Ok n ->
  (1 <= n /\ nth_error matches (Z.to_nat (n - 1)) = Some c)
  \/ (n <= 0 /\ - Z.of_nat (List.length matches) < n
      /\ nth_error matches
           (Z.to_nat (Z.of_nat (List.length matches) + n - 1)) = Some c) ->
  file_path c = PStr p ->
  _cache_recent_file E (posix_join r p) = Ok tt ->
  open_in_editor E (posix_join r p) = Ok tt ->
  open_selected E (PStr r) matches reply =
  ([EPrint [Lit "User selected file: "; Lit (posix_join r p)];
    ECacheRecentFile (posix_join r p);
    EPrint [Lit "Opening file in editor: "; Lit (posix_join r p)];
    EOpenInEditor (posix_join r p)],
   Ok [Lit "Opened "; Val (file_type c); Lit " file: ";
       Lit (posix_join r p)]).
Proof.
  intros Hint Hsel Hp Hcache Hopen.
  assert (Hidx : py_index matches (n - 1) = Ok c).
  { destruct Hsel as [[Hn Hnth] | (Hn & Hlow & Hnth)].
    - apply py_index_in_range; [lia | exact Hnth].
    - apply py_index_from_end; [lia | lia |].
      replace (n - 1 + Z.of_nat (List.length matches))
        with (Z.of_nat (List.length matches) + n - 1) by lia.
      exact Hnth. }
  unfold open_selected. rewrite Hint. norm. rewrite Hidx. norm.
  rewrite Hp. cbn [path_join]. norm. rewrite Hcache. norm.
  rewrite Hopen. norm. reflexivity.
Qed.

Lemma selection_follows_python_indexing_witness :
  open_selected (sample_env PNone (Ok PNone) [] "0") (PStr "/srv/neo-ai")
    [ {| file_path := PStr "a.py"; confidence_score := PFloat (1 # 2);
         file_type := PStr "module" |};
      {| file_path := PStr "b.py"; confidence_score := PFloat (1 # 4);
         file_type := PStr "test" |} ] "0" =
  ([EPrint [Lit "User selected file: "; Lit "/srv/neo-ai/b.py"];
    ECacheRecentFile "/srv/neo-ai/b.py";
    EPrint [Lit "Opening file in editor: "; Lit "/srv/neo-ai/b.py"];
    EOpenInEditor "/srv/neo-ai/b.py"],
   Ok [Lit "Opened "; Val (PStr "test"); Lit " file: ";
       Lit "/srv/neo-ai/b.py"]).
Proof.
  apply (selection_follows_python_indexing
           (sample_env PNone (Ok PNone) [] "0") "/srv/neo-ai" "0" "b.py"
           _ 0
           {| file_path := PStr "b.py"; confidence_score := PFloat (1 # 4);
              file_type := PStr "test" |}).
  - reflexivity.
  - right. split; [lia|]. split; [simpl; lia | reflexivity].
  - reflexivity.
  - reflexivity.
  - reflexivity.
Defined.

(** The [try] block of the selection spans the collaborator calls: a
    [ValueError] or [IndexError] raised by the cache writer or by the editor
    launcher after a valid choice is reported as ["Invalid selection"], in
    the second case with the cache already written; any other exception
    leaves the block. *)
Theorem collaborator_error_reported_as_invalid_selection
  (E : env) (r reply p : string) (matches : list candidate) (n : Z)
  (c : candidate) (e : exn) :
  py_int reply = Ok n ->
  1 <= n ->
  nth_error matches (Z.to_nat (n - 1)) = Some c ->
  file_path c = PStr p ->
  let path := posix_join r p in
  let attempt :=
    try_except (open_selected E (PStr r) matches reply) selection_error
      (fun _ => ret [Lit "Invalid selection"]) in
  (_cache_recent_file E path = Raise e ->
   attempt =
   ([EPrint [Lit "User selected file: "; Lit path]; ECacheRecentFile path],
    if selection_error e then Ok [Lit "Invalid selection"] else Raise e))
  /\ (_cache_recent_file E path = Ok tt ->
      open_in_editor E path = Raise e ->
      attempt =
      ([EPrint [Lit "User selected file: "; Lit path];
        ECacheRecentFile path;
        EPrint [Lit "Opening file in editor: "; Lit path];
        EOpenInEditor path],
       if selection_error e then Ok [Lit "Invalid selection"] else Raise e)).
Proof.
  intros Hint Hn Hnth Hp path attempt. subst path attempt.
  assert (Hidx : py_index matches (n - 1) = Ok c)
    by (apply py_index_in_range; [lia | exact Hnth]).
  unfold open_selected. rewrite Hint. norm. rewrite Hidx. norm.
  rewrite Hp. cbn [path_join]. norm.
  split.
  - intros Hcache. rewrite Hcache. norm. cbn [try_except].
    destruct (selection_error e); reflexivity.
  - intros Hcache Hopen. rewrite Hcache. norm. rewrite Hopen. norm.
    cbn [try_except]. destruct (selection_error e); reflexivity.
Qed.

Lemma collaborator_error_reported_as_invalid_selection_witness :
  let a := {| file_path := PStr "a.py"; confidence_score := PFloat (1 # 2);
              file_type := PStr "module" |} in
  try_except
    (open_selected broken_editor_env (PStr "/srv/neo-ai") [a] "1")
    selection_error (fun _ => ret [Lit "Invalid selection"]) =
  ([EPrint [Lit "User selected file: "; Lit "/srv/neo-ai/a.py"];
    ECacheRecentFile "/srv/neo-ai/a.py";
    EPrint [Lit "Opening file in editor: "; Lit "/srv/neo-ai/a.py"];
    EOpenInEditor "/srv/neo-ai/a.py"],
   Ok [Lit "Invalid selection"]).
Proof.
  intros a.
  assert (Hn : 1 <= 1) by lia.
  exact (proj2 (collaborator_error_reported_as_invalid_selection
                  broken_editor_env "/srv/neo-ai" "1" "a.py" [a] 1 a
                  (Raised ValueError "no editor set")
                  eq_refl Hn eq_refl eq_refl) eq_refl eq_refl).
Defined.

(** Whenever the sort of line 207 returns, on scores of any kind, the ranked
    list holds exactly the parsed candidates: none is lost, none appears
    twice. *)
Theorem ranking_keeps_every_candidate (l r : list candidate) :
  sort_matches l = Ok r ->
  Permutation l r /\ List.length r = List.length l.
Proof.
  intros H.
  assert (Hperm : Permutation l r).
  { revert r H. induction l as [|c l IH]; intros r H; simpl in H.
    - injection H as <-. constructor.
    - destruct (sort_matches l) as [s|e]; simpl in H; [|discriminate H].
      rewrite (IH s eq_refl). apply insert_desc_permutation. exact H. }
  split; [exact Hperm|]. symmetry. apply Permutation_length. exact Hperm.
Qed.

Lemma ranking_keeps_every_candidate_witness :
  let a := {| file_path := PStr "a.py"; confidence_score := PStr "low";
              file_type := PStr "module" |} in
  let b := {| file_path := PStr "b.py"; confidence_score := PStr "high";
              file_type := PStr "test" |} in
  Permutation [a; b] [a; b] /\ List.length [a; b] = List.length [a; b].
Proof.
  intros a b. apply (ranking_keeps_every_candidate [a; b] [a; b]).
  reflexivity.
Defined.

(** A current workspace whose configuration entry has no ["path"] ends the
    run with the generic failure message: the [KeyError] of line 156 is
    caught at the top, and no further collaborator is called. *)
Theorem workspace_without_path_is_an_error
  (E : env) (d : string) (w ws all wss : pyval)
  (cfg : list (string * pyval)) :
  get_current_workspace E = Ok ws ->
  py_truthy ws = true ->
  get_workspaces E = Ok all ->
  py_getitem all "workspaces" = Ok wss ->
  py_get_key wss ws PNone = Ok (PDict cfg) ->
  cfg <> [] ->
  dict_lookup "path" cfg = None ->
  edit_file E d w =
  ([EPrint [Lit "DEBUG: Starting edit_file command"];
    EPrint [Lit "DEBUG: Getting workspace config for '"; Val w; Lit "'"];
    ECurrentWorkspace;
    EPrint [Lit "DEBUG: Current workspace: "; Val ws];
    EWorkspaces;
    EPrint [Lit "DEBUG: Error in edit_file: "; Err (Builtin KeyError)]],
   Ok [Lit "Error: Could not edit file"]).
Proof.
  intros Hws Htruthy Hall Hwss Hcfg Hne Hpath.
  rewrite edit_file_unfold. unfold edit_file_body.
  rewrite Hws. norm. rewrite Htruthy, Hall. norm.
  rewrite Hwss. norm. rewrite Hcfg. norm.
  destruct cfg as [|kv cfg']; [contradiction|].
  cbn [py_truthy negb py_getitem]. rewrite Hpath. norm.
  rewrite report_errors_raise. reflexivity.
Qed.

Lemma unusable_reply_is_rejected_witness :
  try_except
    (open_selected (sample_env PNone (Ok PNone) [] "first") (PStr "/srv")
       [ {| file_path := PStr "a.py"; confidence_score := PFloat (1 # 2);
            file_type := PStr "module" |} ] "first")
    selection_error (fun _ => ret [Lit "Invalid selection"])
  = ([], Ok [Lit "Invalid selection"]).
Proof.
  apply unusable_reply_is_rejected.
  left. split; [reflexivity|]. exists (Builtin ValueError). reflexivity.
Defined.

Lemma unusable_reply_is_rejected_recent_witness :
  try_except (open_recent ["x.py"; "y.py"] "3") selection_error
    (fun _ => ret [Lit "========== Invalid selection"])
  = ([], Ok [Lit "========== Invalid selection"]).
Proof.
  apply unusable_reply_is_rejected_recent.
  right. exists 3. split; [reflexivity | left; simpl; lia].
Defined.

Lemma current_workspace_not_found_witness :
  edit_file (sample_env (PStr "ghost") (Ok PNone) [] "1") "auth middleware"
    PNone =
  ([EPrint [Lit "DEBUG: Starting edit_file command"];
    EPrint [Lit "DEBUG: Getting workspace config for '"; Val PNone; Lit "'"];
    ECurrentWorkspace;
    EPrint [Lit "DEBUG: Current workspace: "; Val (PStr "ghost")];
    EWorkspaces;
    EPrint [Lit "DEBUG: Current workspace '"; Val (PStr "ghost");
            Lit "' not found in config"]],
   Ok [Lit "Current workspace '"; Val (PStr "ghost"); Lit "' not found"]).
Proof.
  apply (current_workspace_not_found
           (sample_env (PStr "ghost") (Ok PNone) [] "1") "auth middleware"
           PNone (PStr "ghost")
           (PDict [("workspaces", PDict sample_workspaces)])
           (PDict sample_workspaces) PNone); reflexivity.
Defined.

Lemma workspace_without_path_is_an_error_witness :
  edit_file pathless_env "auth middleware" PNone =
  ([EPrint [Lit "DEBUG: Starting edit_file command"];
    EPrint [Lit "DEBUG: Getting workspace config for '"; Val PNone; Lit "'"];
    ECurrentWorkspace;
    EPrint [Lit "DEBUG: Current workspace: "; Val (PStr "main")];
    EWorkspaces;
    EPrint [Lit "DEBUG: Error in edit_file: "; Err (Builtin KeyError)]],
   Ok [Lit "Error: Could not edit file"]).
Proof.
  apply (workspace_without_path_is_an_error
           pathless_env "auth middleware" PNone (PStr "main")
           (PDict [("workspaces",
                    PDict [("main", PDict [("frameworks", PDict [])])])])
           (PDict [("main", PDict [("frameworks", PDict [])])])
           [("frameworks", PDict [])]); try reflexivity.
  intros H. discriminate H.
Defined.

Lemma format_2f_displayable (v : pyval) :
  displayable v = true -> exists conf, format_2f v = Ok conf.
Proof.
  destruct v; simpl; try discriminate; eauto. intros ->. eauto.
Qed.

Lemma format_2f_not_displayable (v : pyval) :
  displayable v = false -> exists e, format_2f v = Raise e.
Proof.
  destruct v; simpl; try discriminate; eauto. intros ->. eauto.
Qed.

Lemma menu_run (l : list candidate) (start : Z) :
  Forall (fun m => displayable (confidence_score m) = true) l ->
  exists menu,
    for_each (enumerate_from start l) (fun '(i, m) => menu_line i m)
    = (menu, Ok tt)
    /\ List.length menu = List.length l
    /\ forall i m,
         nth_error l i = Some m ->
         exists conf,
           format_2f (confidence_score m) = Ok conf
           /\ nth_error menu i =
              Some (EEcho [Num (start + Z.of_nat i + 1); Lit ". ";
                           Val (file_type m); Lit " file: ";
                           Val (file_path m); Lit " (confidence: ";
                           conf; Lit ")"]).
Proof.
  intros Hl. revert start.
  induction Hl as [|c l Hc _ IH]; intros start.
  - exists []. repeat split. intros [|i] m H; discriminate H.
  - destruct (format_2f_displayable _ Hc) as (q & Hq).
    destruct (IH (start + 1)) as (menu & Hrun & Hlen & Hnth).
    cbn [enumerate_from for_each]. rewrite Hrun.
    unfold menu_line. rewrite Hq. norm.
    eexists. split; [reflexivity|]. split; [simpl; congruence|].
    intros [|i] m H; simpl in H.
    + injection H as <-. exists q. split; [exact Hq|].
      cbn [nth_error].
      replace (start + Z.of_nat 0 + 1) with (start + 1) by lia.
      reflexivity.
    + destruct (Hnth i m H) as (conf & Hconf & Hline).
      exists conf. split; [exact Hconf|]. cbn [nth_error]. rewrite Hline.
      replace (start + 1 + Z.of_nat i + 1)
        with (start + Z.of_nat (S i) + 1) by lia.
      reflexivity.
Qed.

Lemma menu_run_failure (l : list candidate) (start : Z) :
  Exists (fun m => displayable (confidence_score m) = false) l ->
  exists menu e,
    for_each (enumerate_from start l) (fun '(i, m) => menu_line i m)
    = (menu, Raise e)
    /\ Forall (fun ev => is_echo ev = true) menu.
Proof.
  revert start. induction l as [|c l IH]; intros start Hex.
  - inversion Hex.
  - cbn [enumerate_from for_each]. unfold menu_line at 1.
    destruct (displayable (confidence_score c)) eqn:Hc.
    + destruct (format_2f_displayable _ Hc) as (conf & ->).
      assert (Hl : Exists (fun m => displayable (confidence_score m) = false)
                     l).
      { inversion Hex as [? ? H | ? ? H]; subst; [congruence | exact H]. }
      destruct (IH (start + 1) Hl) as (menu & e & -> & Hmenu).
      norm. eexists; eexists. split; [reflexivity|].
      constructor; [reflexivity | exact Hmenu].
    + destruct (format_2f_not_displayable _ Hc) as (e & ->).
      norm. eexists; eexists. split; [reflexivity | constructor].
Qed.

(** When each of the first five ranked scores can be shown with two
    decimals, the menu is the heading, one line for each of the first five
    ranked candidates and no more, numbered from 1 in rank order, and then
    the question; when one of them cannot, the command stops with the
    exception of that line, before any question. *)
Theorem menu_lists_first_five
  (E : env) (root : pyval) (matches : list candidate) :
  let shown := firstn 5 matches in
  let run := show_options E root matches in
  (Forall (fun m => displayable (confidence_score m) = true) shown ->
   exists menu rest,
     trace run =
       (EEcho [Lit "Multiple matches found:"] :: menu
        ++ EPrompt [Lit "Which file to edit? (number)"] :: rest)%list
     /\ List.length menu = Nat.min 5 (List.length matches)
     /\ forall i m,
          nth_error shown i = Some m ->
          exists conf,
            format_2f (confidence_score m) = Ok conf
            /\ nth_error menu i =
               Some (EEcho [Num (Z.of_nat i + 1); Lit ". ";
                            Val (file_type m); Lit " file: ";
                            Val (file_path m); Lit " (confidence: ";
                            conf; Lit ")"]))
  /\ (Exists (fun m => displayable (confidence_score m) = false) shown ->
      never is_prompt (trace run) /\ exists e, outcome run = Raise e).
Proof.
  intros shown run. subst shown run. split.
  - intros Hshown.
    destruct (menu_run (firstn 5 matches) 0 Hshown)
      as (menu & Hrun & Hlen & Hnth).
    unfold show_options, enumerate. rewrite Hrun. norm. rewrite call_bind.
    norm. rewrite trace_after.
    exists menu. eexists. split; [|split].
    + cbn [app]. rewrite <- app_assoc. cbn [app]. reflexivity.
    + rewrite Hlen. apply length_firstn.
    + intros i m H. destruct (Hnth i m H) as (conf & Hconf & Hline).
      exists conf. split; [exact Hconf | exact Hline].
  - intros Hex.
    destruct (menu_run_failure (firstn 5 matches) 0 Hex)
      as (menu & e & Hrun & Hmenu).
    unfold show_options, enumerate. rewrite Hrun. norm.
    cbn [trace outcome fst snd]. split; [|eauto].
    unfold never. constructor; [reflexivity|].
    eapply Forall_impl; [|exact Hmenu].
    intros [] H; try discriminate H; reflexivity.
Qed.

Lemma menu_lists_first_five_witness :
  let a := {| file_path := PStr "a.py"; confidence_score := PFloat (1 # 2);
              file_type := PStr "module" |} in
  let b := {| file_path := PStr "b.py"; confidence_score := PInt 0;
              file_type := PStr "test" |} in
  let run := show_options (sample_env PNone (Ok PNone) [] "1") (PStr "/srv")
               [a; b; b; b; b; b; b] in
  exists menu rest,
    trace run =
      (EEcho [Lit "Multiple matches found:"] :: menu
       ++ EPrompt [Lit "Which file to edit? (number)"] :: rest)%list
    /\ List.length menu = Nat.min 5 (List.length [a; b; b; b; b; b; b])
    /\ forall i m,
         nth_error (firstn 5 [a; b; b; b; b; b; b]) i = Some m ->
         exists conf,
           format_2f (confidence_score m) = Ok conf
           /\ nth_error menu i =
              Some (EEcho [Num (Z.of_nat i + 1); Lit ". ";
                           Val (file_type m); Lit " file: ";
                           Val (file_path m); Lit " (confidence: ";
                           conf; Lit ")"]).
Proof.
  intros a b run.
  apply (proj1 (menu_lists_first_five (sample_env PNone (Ok PNone) [] "1")
                  (PStr "/srv") [a; b; b; b; b; b; b])).
  repeat constructor.
Defined.

(** ** What the returned message says about the run *)

Lemma honest_after (pre : list event) (m : M text) :
  honest m -> honest (after pre m).
Proof.
  unfold honest. rewrite outcome_after, trace_after.
  intros H msg Hmsg. destruct (H msg Hmsg) as (H1 & H2 & H3).
  split; [|split]; intros.
  - destruct (H1 _ H0). split; apply in_or_app; right; assumption.
  - destruct (H2 _ _ H0). split; apply in_or_app; right; assumption.
  - apply in_or_app. right. apply H3. assumption.
Qed.

Lemma honest_raise (t : list event) (e : exn) : honest (t, Raise e).
Proof. intros msg H. discriminate H. Qed.

Lemma honest_bind {A} (m : M A) (f : A -> M text) :
  (forall a, honest (f a)) -> honest (bind m f).
Proof.
  intros H. destruct m as [t [a|e]].
  - rewrite bind_ok. apply honest_after. apply H.
  - rewrite bind_raise. apply honest_raise.
Qed.

(** Settle [honest] on a run whose trace and message are explicit. *)
Ltac honest_run :=
  let msg := fresh "msg" in
  let H := fresh "H" in
  intros msg H; cbn [outcome trace fst snd] in *;
  first [ discriminate H
        | injection H as <-;
          split; [|split]; intros;
          match goal with
          | Heq : _ = _ |- _ =>
              first [ discriminate Heq
                    | injection Heq as ?; subst; cbn [In];
                      try split; auto 10 ]
          end ].

Lemma honest_report_errors (m : M text) :
  honest m -> honest (report_errors m).
Proof.
  intros H. destruct m as [t [a|e]]; [exact H|].
  rewrite report_errors_raise. honest_run.
Qed.

Lemma open_directly_honest (E : env) (root : pyval) (top : candidate) :
  honest (open_directly E root top).
Proof.
  unfold open_directly.
  destruct (path_join root (file_path top)) as [p|e]; norm;
    [|apply honest_raise].
  destruct (_cache_recent_file E p) as [[]|e]; norm; [|apply honest_raise].
  destruct (open_in_editor E p) as [[]|e]; norm; [|apply honest_raise].
  honest_run.
Qed.

Lemma open_selected_honest (E : env) (root : pyval)
  (matches : list candidate) (choice : string) :
  honest (try_except (open_selected E root matches choice) selection_error
            (fun _ => ret [Lit "Invalid selection"])).
Proof.
  assert (Hstop : forall t e,
             honest (try_except (t, Raise e) selection_error
                       (fun _ => ret [Lit "Invalid selection"]))).
  { intros t e. cbn [try_except]. destruct (selection_error e);
      cbn [ret]; [honest_run | apply honest_raise]. }
  unfold open_selected.
  destruct (py_int choice) as [n|e]; norm; [|apply Hstop].
  destruct (py_index matches (n - 1)) as [c|e]; norm; [|apply Hstop].
  destruct (path_join root (file_path c)) as [p|e]; norm; [|apply Hstop].
  destruct (_cache_recent_file E p) as [[]|e]; norm; [|apply Hstop].
  destruct (open_in_editor E p) as [[]|e]; norm; [|apply Hstop].
  rewrite try_except_ok. honest_run.
Qed.

Lemma open_recent_honest (files : list string) (choice : string) :
  honest (try_except (open_recent files choice) selection_error
            (fun _ => ret [Lit "========== Invalid selection"])).
Proof.
  assert (Hstop : forall t e,
             honest (try_except (t, Raise e) selection_error
                       (fun _ => ret [Lit "========== Invalid selection"]))).
  { intros t e. cbn [try_except]. destruct (selection_error e);
      cbn [ret]; [honest_run | apply honest_raise]. }
  unfold open_recent.
  destruct (py_int choice) as [n|e]; norm; [|apply Hstop].
  destruct (py_index files (n - 1)) as [f|e]; norm; [|apply Hstop].
  rewrite try_except_ok. honest_run.
Qed.

Lemma resolve_honest (E : env) (root : pyval) (matches : list candidate) :
  honest (resolve E root matches).
Proof.
  unfold resolve. destruct matches as [|top rest]; [honest_run|].
  apply honest_bind. intros [|].
  - apply open_directly_honest.
  - unfold show_options. repeat (apply honest_bind; intros ?).
    apply open_selected_honest.
Qed.

Lemma find_and_open_honest (E : env) (ws root : pyval) (d : string) :
  honest (find_and_open E ws root d).
Proof.
  unfold find_and_open. repeat (apply honest_bind; intros ?).
  destruct (contains "recent" (lower d)).
  - unfold recent_files_request. repeat (apply honest_bind; intros ?).
    unfold choose_recent.
    match goal with |- honest (match ?l with _ => _ end) =>
      destruct l as [|f fs] end; [honest_run|].
    repeat (apply honest_bind; intros ?). apply open_recent_honest.
  - unfold match_files, rank_and_resolve.
    repeat (apply honest_bind; intros ?). apply resolve_honest.
Qed.

(** Whenever [edit_file] returns a message saying that a file was opened,
    the run did write that path to the cache and did call [open_in_editor]
    on it (or, for a recent file, did run the shell command on it): the
    command never reports an opening that was not made. *)
Theorem opened_message_means_editor_was_started
  (E : env) (d : string) (w : pyval) (msg : text) :
  outcome (edit_file E d w) = Ok msg ->
  (forall p, msg = [Lit "Opened file: "; Lit p] ->
     In (ECacheRecentFile p) (trace (edit_file E d w))
     /\ In (EOpenInEditor p) (trace (edit_file E d w)))
  /\ (forall t p, msg = [Lit "Opened "; Val t; Lit " file: "; Lit p] ->
      In (ECacheRecentFile p) (trace (edit_file E d w))
      /\ In (EOpenInEditor p) (trace (edit_file E d w)))
  /\ (forall f, msg = [Lit "========== Opened recent file: "; Lit f] ->
      In (ESystem [Lit "code --goto "; Lit f]) (trace (edit_file E d w))).
Proof.
  revert msg. change (honest (edit_file E d w)).
  rewrite edit_file_unfold. apply honest_after, honest_report_errors.
  destruct (edit_file_body_cases E d w)
    as [(pre & ws & root & _ & ->) | (pre & r & _ & -> & Hmsg)].
  - apply honest_after, find_and_open_honest.
  - destruct r as [msg|e]; [|apply honest_raise].
    destruct (Hmsg msg eq_refl) as (ws & ->). honest_run.
Qed.

Lemma opened_message_means_editor_was_started_witness :
  let E := sample_env PNone
             (Ok (PDict (results_of [entry "a.py" (PInt 1) "module"])))
             [] "1" in
  In (ECacheRecentFile "/srv/neo-ai/a.py")
     (trace (edit_file E "auth middleware" PNone))
  /\ In (EOpenInEditor "/srv/neo-ai/a.py")
        (trace (edit_file E "auth middleware" PNone)).
Proof.
  intros E.
  exact (proj1 (opened_message_means_editor_was_started
                  E "auth middleware" PNone
                  [Lit "Opened file: "; Lit "/srv/neo-ai/a.py"] eq_refl)
           "/srv/neo-ai/a.py" eq_refl).
Defined.

(** * Properties of the other commands *)

(** ** show_config *)

Ltac tried_cases :=
  repeat match goal with
         | H : _ /\ _ |- _ => destruct H
         | H : _ \/ _ |- _ => destruct H
         | H : exists _, _ |- _ => destruct H
         | H : Got _ = Got _ |- _ => injection H as H; subst
         | H : @eq (tried _) _ _ |- _ => discriminate H
         | H : @eq bool _ _ |- _ => discriminate H
         | H : @eq (list string * tried string) _ _ |- _ =>
             apply (f_equal fst) in H; cbn in H; discriminate H
         | H1 : ?x = _, H2 : ?x = _ |- _ => rewrite H1 in H2
         end.

(** [show_config] returns the message ["Error: Could not load
    assistant_config module"] exactly when the file read, the YAML load or
    the JSON dump, as far as the run gets, raises an [ImportError]; it
    echoes exactly the text it returns; and every other exception of these
    steps leaves it unchanged, with nothing echoed: a missing configuration
    file is not turned into a message. *)
Theorem show_config_prints_what_it_returns
  (F : config_env) (verbose : bool) :
  let failure := "Error: Could not load assistant_config module" in
  let read := read_file F "./assistant_config.yml" in
  ((exists msg,
       read = ImportFailed msg
       \/ (verbose = true
           /\ exists config,
                read = Got config
                /\ (safe_load F config = ImportFailed msg
                    \/ exists loaded,
                         safe_load F config = Got loaded
                         /\ dumps_indent2 F loaded = ImportFailed msg)))
   <-> show_config F verbose = ([failure], Got failure))
  /\ match show_config F verbose with
     | (lines, Got result) => lines = [result]
     | (_, ImportFailed _) => False
     | (lines, Failed e) =>
         lines = []
         /\ (read = Failed e
             \/ (verbose = true
                 /\ exists config,
                      read = Got config
                      /\ (safe_load F config = Failed e
                          \/ exists loaded,
                               safe_load F config = Got loaded
                               /\ dumps_indent2 F loaded = Failed e)))
     end.
Proof.
  intros failure read. subst failure read.
  unfold show_config, config_text.
  destruct (read_file F "./assistant_config.yml") as [config|msg|e] eqn:Hread;
    cbn [tbind].
  - destruct verbose.
    + destruct (safe_load F config) as [loaded|msg|e] eqn:Hload; cbn [tbind].
      * destruct (dumps_indent2 F loaded) as [dumped|msg|e] eqn:Hdump;
          cbn [tbind].
        -- split; [split; intros H; tried_cases | reflexivity].
        -- split; [split; [reflexivity|] | reflexivity].
           intros _. exists msg. right. split; [reflexivity|].
           exists config. split; [reflexivity|]. right. exists loaded. auto.
        -- split; [split; intros H; tried_cases |].
           split; [reflexivity|]. right. split; [reflexivity|].
           exists config. split; [reflexivity|]. right. exists loaded. auto.
      * split; [split; [reflexivity|] | reflexivity].
        intros _. exists msg. right. split; [reflexivity|].
        exists config. auto.
      * split; [split; intros H; tried_cases |].
        split; [reflexivity|]. right. split; [reflexivity|].
        exists config. auto.
    + split; [split; intros H; tried_cases | reflexivity].
  - split; [split; [reflexivity|] | reflexivity].
    intros _. exists msg. left. reflexivity.
  - split; [split; intros H; tried_cases | auto].
Qed.

(** ** list_files *)

(** For a directory that can be listed, [list_files] echoes and returns one
    line naming the entries, in listing order: all of them with [--all],
    and otherwise exactly those whose name does not start with a dot. *)
Theorem list_files_hides_dot_entries
  (F : fs_env) (path : string) (all_files : bool) (entries : list string) :
  isdir F path = true ->
  listdir F path = Ok entries ->
  exists shown,
    list_files F path all_files =
      ([EEcho [Lit "Files in '"; Lit path; Lit "': ";
               Val (PList (map PStr shown))]],
       Ok [Lit "Files in '"; Lit path; Lit "': ";
           Val (PList (map PStr shown))])
    /\ (all_files = true -> shown = entries)
    /\ (all_files = false ->
        shown = filter visible entries
        /\ forall e, In e shown <->
                     In e entries /\ String.prefix "." e = false).
Proof.
  intros Hdir Hlist. unfold list_files. rewrite Hdir, Hlist.
  cbn [negb]. norm.
  exists (if all_files then entries else filter visible entries).
  split; [reflexivity|].
  destruct all_files; split; try discriminate; auto.
  intros _. split; [reflexivity|].
  intros e. rewrite filter_In. unfold visible. rewrite negb_true_iff.
  reflexivity.
Qed.

Lemma list_files_hides_dot_entries_witness :
  exists shown,
    list_files (sample_fs []) "/p" false =
      ([EEcho [Lit "Files in '"; Lit "/p"; Lit "': ";
               Val (PList (map PStr shown))]],
       Ok [Lit "Files in '"; Lit "/p"; Lit "': ";
           Val (PList (map PStr shown))])
    /\ (false = true -> shown = [".git"; "a.py"; ".env"])
    /\ (false = false ->
        shown = filter visible [".git"; "a.py"; ".env"]
        /\ forall e, In e shown <->
                     In e [".git"; "a.py"; ".env"]
                     /\ String.prefix "." e = false).
Proof.
  apply (list_files_hides_dot_entries (sample_fs []) "/p" false
           [".git"; "a.py"; ".env"]); reflexivity.
Defined.

(** ** compare_files *)

Lemma marked_starts (line : string) :
  marked line = true ->
  exists rest, line = String "+" rest \/ line = String "-" rest.
Proof.
  unfold marked. destruct line as [|c rest]; [discriminate|].
  cbn [String.prefix]. intros H. exists rest.
  destruct (ascii_dec "+" c) as [<-|_]; [left; reflexivity|].
  destruct (ascii_dec "-" c) as [<-|_]; [right; reflexivity|].
  discriminate H.
Qed.

Lemma marked_lines_not_blank (line : string) (lines : list string) :
  marked line = true -> is_blank (String.concat nl (line :: lines)) = false.
Proof.
  intros H. destruct (marked_starts line H) as (rest & [-> | ->]);
    destruct lines; reflexivity.
Qed.

Lemma filter_nil_iff {A} (f : A -> bool) (l : list A) :
  filter f l = [] <-> forall x, In x l -> f x = false.
Proof.
  induction l as [|y l IH]; simpl.
  - split; [intros _ x [] | reflexivity].
  - destruct (f y) eqn:Hy.
    + split; [discriminate|]. intros H. specialize (H y (or_introl eq_refl)).
      congruence.
    + rewrite IH. split.
      * intros H x [<- | Hx]; auto.
      * intros H x Hx. apply H. right. exact Hx.
Qed.

(** Whenever [compare_files] returns, it has echoed one line: the returned
    text itself, unless that text is blank, in which case it echoes
    ["Files are identical."] while still returning the blank text. *)
Theorem compare_files_echo_and_result
  (F : fs_env) (file_a file_b : string) (diff_only : bool) (r : string) :
  outcome (compare_files F file_a file_b diff_only) = Ok r ->
  trace (compare_files F file_a file_b diff_only) =
  [EEcho [Lit (if is_blank r then "Files are identical." else r)]].
Proof.
  unfold compare_files.
  destruct (negb (isfile F file_a) || negb (isfile F file_b)).
  - norm. cbn [outcome trace fst snd]. intros H. injection H as <-.
    reflexivity.
  - destruct (open_text F file_a) as [fa|e]; norm;
      [|intros H; discriminate H].
    destruct (open_text F file_b) as [fb|e]; norm;
      [|intros H; discriminate H].
    destruct fa as [lines_a|e]; norm; [|intros H; discriminate H].
    destruct fb as [lines_b|e]; norm; [|intros H; discriminate H].
    cbn [outcome trace fst snd]. intros H. injection H as <-. reflexivity.
Qed.

Lemma compare_files_echo_and_result_witness :
  trace (compare_files (sample_fs [" same"]) "a" "b" true) =
  [EEcho [Lit (if is_blank "" then "Files are identical." else "")]].
Proof.
  apply (compare_files_echo_and_result (sample_fs [" same"]) "a" "b" true "").
  reflexivity.
Defined.

(** With [--diff-only], on two readable files: the returned text joins, with
    line feeds, the lines of the diff that start with [+] or [-] (the
    [---]/[+++] header lines among them) and drops the others; when the
    diff has no such line the command returns the empty text and echoes
    ["Files are identical."], otherwise it echoes the returned text. *)
Theorem diff_only_keeps_marked_lines
  (F : fs_env) (file_a file_b : string) (lines_a lines_b : list string) :
  isfile F file_a = true ->
  isfile F file_b = true ->
  open_text F file_a = Ok (Ok lines_a) ->
  open_text F file_b = Ok (Ok lines_b) ->
  let diff := unified_diff F lines_a lines_b file_a file_b in
  let kept := filter marked diff in
  compare_files F file_a file_b true =
    ([EEcho [Lit (match kept with
                  | [] => "Files are identical."
                  | _ :: _ => String.concat nl kept
                  end)]],
     Ok (String.concat nl kept))
  /\ (kept = [] <-> forall line, In line diff -> marked line = false).
Proof.
  intros Ha Hb Hoa Hob diff kept. split; [|apply filter_nil_iff].
  unfold compare_files. rewrite Ha, Hb. cbn [negb orb].
  rewrite Hoa, Hob. norm. fold diff. fold kept.
  destruct kept as [|line lines] eqn:Hkept; [reflexivity|].
  assert (Hmarked : marked line = true).
  { assert (Hin : In line (filter marked diff))
      by (fold kept; rewrite Hkept; left; reflexivity).
    apply filter_In in Hin. apply Hin. }
  rewrite (marked_lines_not_blank line lines Hmarked). reflexivity.
Qed.

Lemma diff_only_keeps_marked_lines_witness :
  let diff := ["--- a"; "+++ b"; "@@ -1 +1 @@"; "-old"; "+new"; " same"] in
  compare_files (sample_fs diff) "a" "b" true =
    ([EEcho [Lit (match filter marked diff with
                  | [] => "Files are identical."
                  | _ :: _ => String.concat nl (filter marked diff)
                  end)]],
     Ok (String.concat nl (filter marked diff)))
  /\ (filter marked diff = [] <->
      forall line, In line diff -> marked line = false).
Proof.
  intros diff.
  apply (diff_only_keeps_marked_lines (sample_fs diff) "a" "b" [] []);
    reflexivity.
Defined.

(** ** list_notion_tasks *)

Lemma stdout_of_app (t u : list event) :
  stdout_of (t ++ u) = (stdout_of t ++ stdout_of u)%list.
Proof. unfold stdout_of. apply flat_map_app. Qed.

Lemma show_task_run (N : notion_env) (status : option string)
  (t : pyval) (o : list out) :
  task_output N status t o ->
  exists tr, show_task N status t = (tr, Ok tt) /\ stdout_of tr = o.
Proof.
  unfold show_task.
  intros [[Hf ->] | (Hf & line & Hline & ->)]; rewrite Hf; norm.
  - exists []. split; reflexivity.
  - rewrite Hline. norm. eexists. split; reflexivity.
Qed.

Lemma tasks_run (N : notion_env) (status : option string)
  (ts : list pyval) (blocks : list (list out)) :
  Forall2 (task_output N status) ts blocks ->
  exists tr,
    for_each ts (show_task N status) = (tr, Ok tt)
    /\ stdout_of tr = List.concat blocks.
Proof.
  induction 1 as [|t o ts blocks Ht _ (tr & Hrun & Hout)].
  - exists []. split; reflexivity.
  - destruct (show_task_run N status t o Ht) as (tr0 & Hrun0 & Hout0).
    cbn [for_each]. rewrite Hrun0, bind_ok, Hrun.
    exists (tr0 ++ tr)%list. split; [reflexivity|].
    rewrite stdout_of_app, Hout0, Hout. reflexivity.
Qed.

Lemma tasks_run_failure (N : notion_env) (status : option string)
  (good rest : list pyval) (bad : pyval) (blocks : list (list out))
  (e : exn) :
  Forall2 (task_output N status) good blocks ->
  filtered_out N status bad = Raise e
  \/ (filtered_out N status bad = Ok false /\ task_line bad = Raise e) ->
  exists tr,
    for_each (good ++ bad :: rest) (show_task N status) = (tr, Raise e)
    /\ stdout_of tr = List.concat blocks.
Proof.
  intros Hgood Hbad.
  induction Hgood as [|t o ts blocks Ht _ (tr & Hrun & Hout)].
  - exists []. split; [|reflexivity].
    cbn [app for_each]. unfold show_task.
    destruct Hbad as [Hf | [Hf Hline]]; rewrite Hf; norm;
      [|rewrite Hline; norm]; reflexivity.
  - destruct (show_task_run N status t o Ht) as (tr0 & Hrun0 & Hout0).
    cbn [app for_each]. rewrite Hrun0, bind_ok, Hrun.
    exists (tr0 ++ tr)%list. split; [reflexivity|].
    rewrite stdout_of_app, Hout0, Hout. reflexivity.
Qed.

Lemma notion_body_unfold (N : notion_env) (db : pyval)
  (status : option string) (ts : list pyval) :
  list_tasks N db = Ok (PList ts) ->
  ts <> [] ->
  list_notion_tasks_body N db status =
  after [EEcho [Lit (nl ++ "=== Notion Tasks ===" ++ nl)]]
    (for_each ts (show_task N status)).
Proof.
  intros Htasks Hne. unfold list_notion_tasks_body. rewrite Htasks. norm.
  destruct ts as [|t ts]; [contradiction|].
  cbn [py_truthy negb py_iter]. norm. reflexivity.
Qed.

(** On a non-empty list of tasks each of which can be shown, the command
    writes the heading and then, in the order of the list, one block for
    each task that passes the status filter and nothing for the others. *)
Theorem notion_lists_matching_tasks
  (N : notion_env) (db : pyval) (status : option string)
  (ts : list pyval) (blocks : list (list out)) :
  list_tasks N db = Ok (PList ts) ->
  ts <> [] ->
  Forall2 (task_output N status) ts blocks ->
  list_notion_tasks N db status = notion_heading :: List.concat blocks.
Proof.
  intros Htasks Hne Hall.
  destruct (tasks_run N status ts blocks Hall) as (tr & Hrun & Hout).
  unfold list_notion_tasks.
  rewrite (notion_body_unfold N db status ts Htasks Hne), Hrun.
  unfold after. cbn [trace outcome fst snd app].
  cbn [stdout_of flat_map]. fold (stdout_of tr). rewrite Hout.
  rewrite app_nil_r. reflexivity.
Qed.

Lemma notion_lists_matching_tasks_witness :
  let ts := [task "Fix login" "Open"; task "Ship it" "done"] in
  list_notion_tasks (sample_notion ts) PNone (Some "DONE") =
  notion_heading
  :: List.concat [[];
             [Stdout [Lit "📌 "; Val (PStr "Ship it"); Lit nl;
                      Lit "   └─ Status: "; Val (PStr "done"); Lit nl;
                      Lit nl]]].
Proof.
  intros ts.
  apply (notion_lists_matching_tasks (sample_notion ts) PNone (Some "DONE")
           ts).
  - reflexivity.
  - discriminate.
  - constructor; [left; split; reflexivity|].
    constructor; [|constructor].
    right. split; [reflexivity|]. eexists. split; reflexivity.
Defined.

Lemma all_filtered_out (N : notion_env) (status : option string)
  (ts : list pyval) :
  Forall (fun t => filtered_out N status t = Ok true) ts ->
  Forall2 (task_output N status) ts (map (fun _ => []) ts).
Proof.
  induction 1 as [|t ts Ht _ IH]; constructor; [left; auto | exact IH].
Qed.

Lemma concat_of_nothing (ts : list pyval) :
  List.concat (map (fun _ : pyval => @nil out) ts) = [].
Proof. induction ts as [|t ts IH]; [reflexivity | exact IH]. Qed.

(** The heading is written as soon as the task list is not empty: when the
    status filter leaves out every task, the heading is all the command
    writes (and not ["No tasks found"]). *)
Theorem notion_heading_without_matches
  (N : notion_env) (db : pyval) (status : option string) (ts : list pyval) :
  list_tasks N db = Ok (PList ts) ->
  ts <> [] ->
  Forall (fun t => filtered_out N status t = Ok true) ts ->
  list_notion_tasks N db status = [notion_heading].
Proof.
  intros Htasks Hne Hall.
  destruct (tasks_run N status ts _ (all_filtered_out N status ts Hall))
    as (tr & Hrun & Hout).
  assert (Hnil := concat_of_nothing ts).
  unfold list_notion_tasks.
  rewrite (notion_body_unfold N db status ts Htasks Hne), Hrun.
  unfold after. cbn [trace outcome fst snd app].
  cbn [stdout_of flat_map]. fold (stdout_of tr). rewrite Hout, Hnil.
  reflexivity.
Qed.

Lemma notion_heading_without_matches_witness :
  list_notion_tasks
    (sample_notion [task "Fix login" "Open"; task "Ship it" "Done"])
    PNone (Some "blocked") = [notion_heading].
Proof.
  apply (notion_heading_without_matches _ PNone (Some "blocked")
           [task "Fix login" "Open"; task "Ship it" "Done"]).
  - reflexivity.
  - discriminate.
  - repeat constructor.
Defined.

(** The first task that cannot be shown ends the listing: the blocks of the
    tasks before it stay written, the tasks after it are not looked at, and
    the exception becomes one line on standard error, ["Error: ..."] for a
    [ValueError] and ["Failed to fetch tasks: ..."] for anything else. *)
Theorem notion_failure_stops_listing
  (N : notion_env) (db : pyval) (status : option string)
  (good rest : list pyval) (bad : pyval) (blocks : list (list out))
  (e : exn) :
  list_tasks N db = Ok (PList (good ++ bad :: rest)) ->
  Forall2 (task_output N status) good blocks ->
  filtered_out N status bad = Raise e
  \/ (filtered_out N status bad = Ok false /\ task_line bad = Raise e) ->
  list_notion_tasks N db status =
  (notion_heading :: List.concat blocks ++
   [Stderr [Lit (match class_of e with
                 | ValueError => "Error: "
                 | _ => "Failed to fetch tasks: "
                 end);
            Err e]])%list.
Proof.
  intros Htasks Hgood Hbad.
  destruct (tasks_run_failure N status good rest bad blocks e Hgood Hbad)
    as (tr & Hrun & Hout).
  assert (Hne : (good ++ bad :: rest)%list <> [])
    by (destruct good; discriminate).
  unfold list_notion_tasks.
  rewrite (notion_body_unfold N db status _ Htasks Hne), Hrun.
  unfold after. cbn [trace outcome fst snd app].
  cbn [stdout_of flat_map]. fold (stdout_of tr). rewrite Hout.
  cbn [app]. destruct (class_of e); reflexivity.
Qed.

Lemma notion_failure_stops_listing_witness :
  let untitled := PDict [("status", PStr "Open")] in
  list_notion_tasks
    (sample_notion [task "Fix login" "Open"; untitled; task "Ship it" "Done"])
    PNone None =
  (notion_heading
   :: List.concat [[Stdout [Lit "📌 "; Val (PStr "Fix login"); Lit nl;
                       Lit "   └─ Status: "; Val (PStr "Open"); Lit nl;
                       Lit nl]]]
   ++ [Stderr [Lit "Failed to fetch tasks: "; Err (Builtin KeyError)]])%list.
Proof.
  intros untitled.
  apply (notion_failure_stops_listing
           (sample_notion [task "Fix login" "Open"; untitled;
                           task "Ship it" "Done"])
           PNone None [task "Fix login" "Open"] [task "Ship it" "Done"]
           untitled _ (Builtin KeyError)).
  - reflexivity.
  - constructor; [|constructor].
    right. split; [reflexivity|]. eexists. split; reflexivity.
  - right. split; reflexivity.
Defined.

Lemma labelled_dict (label : string) (d : list (string * pyval))
  (key : string) :
  labelled label (PDict d) key =
  Ok (match dict_lookup key d with
      | Some v => if py_truthy v then [[Lit label; Val v]] else []
      | None => []
      end).
Proof.
  unfold labelled. cbn [py_get rbind py_getitem].
  destruct (dict_lookup key d) as [v|]; [|reflexivity].
  destruct (py_truthy v); reflexivity.
Qed.

(** A task that has an assignee shows it twice: lines 289-294 append
    ["Assigned To: ..."] to the people line two times. *)
Theorem assigned_to_is_printed_twice
  (d : list (string * pyval)) (title a : pyval) :
  dict_lookup "title" d = Some title ->
  dict_lookup "assigned_to" d = Some a ->
  py_truthy a = true ->
  exists before after,
    task_line (PDict d) =
    Ok (before
        ++ [Lit "Assigned To: "; Val a; Lit " | ";
            Lit "Assigned To: "; Val a]
        ++ after)%list.
Proof.
  intros Htitle Hassigned Htruthy.
  unfold task_line. rewrite !labelled_dict.
  cbn [py_getitem py_get rbind]. rewrite Htitle, Hassigned, Htruthy.
  cbn [rbind].
  set (metadata := joined_line _ (_ ++ _)%list [Lit nl]).
  set (extra := joined_line _ (_ ++ _)%list []).
  destruct (dict_lookup "reporter" d) as [v|];
    [destruct (py_truthy v)|]; cbn [app joined_line join_texts].
  - exists ([Lit "📌 "; Val title; Lit nl; Lit "   └─ Status: ";
             Val (match dict_lookup "status" d with
                  | Some x => x
                  | None => PStr "No status"
                  end); Lit nl]
            ++ metadata
            ++ [Lit "   ├─ "; Lit "Reporter: "; Val v; Lit " | "])%list.
    exists (Lit nl :: extra).
    rewrite <- !app_assoc. reflexivity.
  - exists ([Lit "📌 "; Val title; Lit nl; Lit "   └─ Status: ";
             Val (match dict_lookup "status" d with
                  | Some x => x
                  | None => PStr "No status"
                  end); Lit nl]
            ++ metadata ++ [Lit "   ├─ "])%list.
    exists (Lit nl :: extra).
    rewrite <- !app_assoc. reflexivity.
  - exists ([Lit "📌 "; Val title; Lit nl; Lit "   └─ Status: ";
             Val (match dict_lookup "status" d with
                  | Some x => x
                  | None => PStr "No status"
                  end); Lit nl]
            ++ metadata ++ [Lit "   ├─ "])%list.
    exists (Lit nl :: extra).
    rewrite <- !app_assoc. reflexivity.
Qed.

Lemma assigned_to_is_printed_twice_witness :
  exists before after,
    task_line (PDict [("title", PStr "Fix login");
                      ("assigned_to", PStr "ana")]) =
    Ok (before
        ++ [Lit "Assigned To: "; Val (PStr "ana"); Lit " | ";
            Lit "Assigned To: "; Val (PStr "ana")]
        ++ after)%list.
Proof.
  apply (assigned_to_is_printed_twice _ (PStr "Fix login") (PStr "ana"));
    reflexivity.
Defined.

(** * Ranking and resolution together *)

Lemma sorted_input_is_kept (l : list candidate) :
  Forall numeric l -> StronglySorted score_ge l -> sort_matches l = Ok l.
Proof.
  intros Hnum Hsorted. induction Hsorted as [|c l Hs IH Hall]; [reflexivity|].
  inversion Hnum as [|? ? Hc Hl]; subst.
  cbn [sort_matches]. rewrite (IH Hl). cbn [rbind].
  destruct l as [|d l']; [reflexivity|].
  inversion Hall as [|? ? (p & q & Hp & Hq & Hle) _]; subst.
  cbn [insert_desc]. unfold sort_key.
  rewrite (py_lt_num _ _ _ _ Hp Hq). cbn [rbind].
  apply Qltb_false in Hle. rewrite Hle. reflexivity.
Qed.

(** Sorting is idempotent on numeric scores: an answer that is already in
    non-increasing order of confidence is left exactly as it is, and ranking
    a ranked list changes nothing. *)
Theorem ranking_is_idempotent (l r : list candidate) :
  Forall numeric l ->
  sort_matches l = Ok r ->
  sort_matches r = Ok r
  /\ (StronglySorted score_ge l -> r = l).
Proof.
  intros Hnum Hsort.
  destruct (sort_matches_spec l Hnum) as (r' & Hr' & Hperm & Hsorted & _).
  rewrite Hsort in Hr'. injection Hr' as <-.
  split.
  - apply sorted_input_is_kept; [|exact Hsorted].
    eapply Permutation_Forall; eauto.
  - intros Hl. rewrite (sorted_input_is_kept l Hnum Hl) in Hsort.
    injection Hsort as <-. reflexivity.
Qed.

Lemma ranking_is_idempotent_witness :
  let a := {| file_path := PStr "a.py"; confidence_score := PFloat (1 # 2);
              file_type := PStr "module" |} in
  let b := {| file_path := PStr "b.py"; confidence_score := PInt 1;
              file_type := PStr "test" |} in
  sort_matches [b; a] = Ok [b; a]
  /\ (StronglySorted score_ge [a; b] -> [b; a] = [a; b]).
Proof.
  intros a b. apply (ranking_is_idempotent [a; b] [b; a]).
  - repeat constructor.
  - reflexivity.
Defined.

Lemma open_directly_never_asks (E : env) (root : pyval) (top : candidate) :
  never is_prompt (trace (open_directly E root top)).
Proof.
  unfold open_directly, never.
  destruct (path_join root (file_path top)) as [p|e]; norm;
    [|constructor].
  destruct (_cache_recent_file E p) as [[]|e]; norm;
    [|repeat constructor].
  destruct (open_in_editor E p) as [[]|e]; norm; repeat constructor.
Qed.

Lemma numeric_threshold (c : candidate) :
  numeric c ->
  (py_gt (confidence_score c) (PFloat float_0_9) = Ok true
   /\ above_threshold (confidence_score c))
  \/ (py_gt (confidence_score c) (PFloat float_0_9) = Ok false
      /\ ~ above_threshold (confidence_score c)).
Proof.
  intros Hc. destruct (is_num_val _ Hc) as (q & Hq).
  unfold py_gt.
  rewrite (py_lt_num (PFloat float_0_9) _ float_0_9 q eq_refl Hq).
  destruct (Qltb float_0_9 q) eqn:Hlt.
  - left. split; [reflexivity|]. right. exists q. split; [exact Hq|].
    apply Qltb_true. exact Hlt.
  - right. split; [reflexivity|]. intros [Hinf | (q' & Hq' & Habove)].
    + rewrite Hinf in Hq. discriminate Hq.
    + rewrite Hq in Hq'. injection Hq' as <-.
      apply Qltb_true in Habove. congruence.
Qed.

Lemma top_dominates (top : candidate) (rest : list candidate)
  (c : candidate) :
  StronglySorted score_ge (top :: rest) ->
  In c (top :: rest) ->
  above_threshold (confidence_score c) ->
  above_threshold (confidence_score top).
Proof.
  intros Hsorted [<- | Hin] Habove; [exact Habove|].
  inversion Hsorted as [|? ? _ Hall]; subst.
  rewrite Forall_forall in Hall.
  destruct (Hall c Hin) as (p & q & Hp & Hq & Hle).
  destruct Habove as [Hinf | (q' & Hq' & Hlt)].
  - rewrite Hinf in Hq. discriminate Hq.
  - rewrite Hq in Hq'. injection Hq' as <-.
    right. exists p. split; [exact Hp|]. eapply Qlt_le_trans; eauto.
Qed.

Lemma presentable_is_well_formed (m : pyval) :
  presentable_entry m -> well_formed_entry m.
Proof.
  intros (o & -> & Ho). exists o. split; [reflexivity|].
  intros v Hv. apply (Ho v Hv).
Qed.

Lemma parse_all_displayable (raw : list pyval) (parsed : list candidate) :
  Forall presentable_entry raw -> parse_all raw = Ok parsed ->
  Forall (fun c => displayable (confidence_score c) = true) parsed.
Proof.
  intros Hraw. revert parsed.
  induction Hraw as [|m raw (o & -> & Ho) _ IH]; cbn [parse_all];
    intros parsed H.
  - injection H as <-. constructor.
  - rewrite parse_match_dict in H. cbn [rbind] in H.
    destruct (parse_all raw) as [cs|e]; cbn [rbind] in H; [|discriminate H].
    injection H as <-. constructor; [|apply IH; reflexivity].
    cbn [confidence_score].
    destruct (dict_lookup "confidence_score" o) as [v|];
      [apply (Ho v eq_refl) | reflexivity].
Qed.

(** Parsing, ranking and resolution together, on a non-empty answer whose
    scores, where present, are finite numbers that the menu can show: the
    user is asked to choose exactly when no candidate of the answer,
    wherever it stands in the answer, has a confidence score above 0.9. *)
Theorem menu_iff_no_confident_candidate
  (E : env) (root : pyval) (d : list (string * pyval)) (raw : list pyval) :
  dict_lookup "results" d = Some (PList raw) ->
  Forall presentable_entry raw ->
  raw <> [] ->
  exists parsed,
    parse_matches (PDict d) = Ok parsed
    /\ (In (EPrompt [Lit "Which file to edit? (number)"])
           (trace (rank_and_resolve E root (PDict d)))
        <-> ~ Exists (fun c => above_threshold (confidence_score c)) parsed).
Proof.
  intros Hres Hraw Hne.
  assert (Hwf : Forall well_formed_entry raw)
    by (eapply Forall_impl; [apply presentable_is_well_formed | exact Hraw]).
  destruct (parse_all_total raw Hwf) as (parsed & Hp & Hlen & Hnum).
  pose proof (parse_all_displayable raw parsed Hraw Hp) as Hshow.
  destruct (sort_matches_spec parsed Hnum)
    as (ranked & Hs & Hperm & Hsorted & _).
  assert (Hpm : parse_matches (PDict d) = Ok parsed)
    by (rewrite (parse_matches_results d raw Hres); exact Hp).
  exists parsed. split; [exact Hpm|].
  assert (Hrnum : Forall numeric ranked)
    by (eapply Permutation_Forall; eauto).
  assert (Hrshow : Forall (fun c => displayable (confidence_score c) = true)
                     ranked)
    by (eapply Permutation_Forall; eauto).
  unfold rank_and_resolve. rewrite Hpm. norm. rewrite Hs. norm.
  rewrite trace_after.
  destruct ranked as [|top rest].
  { apply Permutation_sym, Permutation_nil in Hperm. subst parsed.
    destruct raw; [contradiction | discriminate Hlen]. }
  inversion Hrnum as [|? ? Htop _]; subst.
  unfold resolve.
  destruct (numeric_threshold top Htop) as [[Hgt Habove] | [Hgt Hnot]];
    rewrite Hgt; norm; rewrite trace_after; cbn [app].
  - split.
    + intros [Hin | Hin]; [discriminate Hin|]. exfalso.
      pose proof (open_directly_never_asks E root top) as Hnever.
      unfold never in Hnever. rewrite Forall_forall in Hnever.
      specialize (Hnever _ Hin). discriminate Hnever.
    + intros Hno. exfalso. apply Hno. apply Exists_exists.
      exists top. split; [|exact Habove].
      eapply Permutation_in; [apply Permutation_sym; exact Hperm|].
      left. reflexivity.
  - split.
    + intros _ Hex. apply Exists_exists in Hex.
      destruct Hex as (c & Hin & Habove). apply Hnot.
      apply (top_dominates top rest c Hsorted); [|exact Habove].
      eapply Permutation_in; eauto.
    + intros _. right.
      assert (H5 : Forall (fun c => displayable (confidence_score c) = true)
                     (firstn 5 (top :: rest))).
      { rewrite Forall_forall in *. intros x Hx. apply Hrshow.
        rewrite <- (firstn_skipn 5 (top :: rest)). apply in_or_app.
        left. exact Hx. }
      destruct (menu_run (firstn 5 (top :: rest)) 0 H5)
        as (menu & Hrun & _).
      unfold show_options, enumerate. rewrite Hrun. norm.
      rewrite call_bind. norm. rewrite trace_after.
      apply in_or_app. left. cbn [app]. right.
      apply in_or_app. right. left. reflexivity.
Qed.

Lemma menu_iff_no_confident_candidate_witness :
  let raw := [entry "a.py" (PFloat (1 # 2)) "module";
              entry "b.py" (PInt 1) "test"] in
  exists parsed,
    parse_matches (PDict (results_of raw)) = Ok parsed
    /\ (In (EPrompt [Lit "Which file to edit? (number)"])
           (trace (rank_and_resolve (sample_env PNone (Ok PNone) [] "1")
                     (PStr "/srv") (PDict (results_of raw))))
        <-> ~ Exists (fun c => above_threshold (confidence_score c)) parsed).
Proof.
  intros raw.
  apply (menu_iff_no_confident_candidate
           (sample_env PNone (Ok PNone) [] "1") (PStr "/srv")
           (results_of raw) raw).
  - reflexivity.
  - repeat constructor; eexists; (split; [reflexivity|]);
      intros v Hv; injection Hv as <-; split; reflexivity.
  - discriminate.
Defined.

(** Outside these answers the equivalence fails both ways: with a NaN
    score ahead of one above 0.9 the user is asked although a confident
    candidate is there, and with an [int] score beyond the float range the
    menu breaks off and the user is not asked although no candidate is
    confident. *)
Lemma unranked_or_unshown_scores :
  let ask := EPrompt [Lit "Which file to edit? (number)"] in
  let hidden :=
    rank_and_resolve (sample_env PNone (Ok PNone) [] "1") (PStr "/srv")
      (PDict (results_of [entry "a.py" PNan "module";
                          entry "b.py" (PFloat float_0_95) "module"])) in
  let broken :=
    rank_and_resolve (sample_env PNone (Ok PNone) [] "1") (PStr "/srv")
      (PDict (results_of [entry "a.py" (PFloat (1 # 2)) "module";
                          entry "b.py" (PInt (- 10 ^ 400)) "module"])) in
  In ask (trace hidden)
  /\ py_gt (PFloat float_0_95) (PFloat float_0_9) = Ok true
  /\ ~ In ask (trace broken)
  /\ outcome broken = Raise (Builtin OverflowError).
Proof.
  vm_compute. repeat split; try solve [in_list].
  intros H. repeat (destruct H as [H | H]; [discriminate H|]). exact H.
Qed.

(** * One question, one cache write, one launch *)

Lemma occurrences_app (P : event -> bool) (t u : list event) :
  occurrences P (t ++ u) = (occurrences P t + occurrences P u)%nat.
Proof. unfold occurrences. rewrite filter_app. apply length_app. Qed.

Lemma never_occurrences (P : event -> bool) (t : list event) :
  never P t -> occurrences P t = 0%nat.
Proof.
  unfold never, occurrences. induction 1 as [|ev t Hev _ IH]; [reflexivity|].
  cbn [filter]. rewrite Hev. exact IH.
Qed.

Lemma once_after_silent (pre t : list event) :
  Forall (fun ev => silent ev = true) pre ->
  acts_at_most_once t -> acts_at_most_once (pre ++ t).
Proof.
  intros Hpre (Hp & Hc & Hl).
  destruct (silent_never pre Hpre) as (Np & Nc & Nl).
  unfold acts_at_most_once. rewrite !occurrences_app.
  rewrite (never_occurrences _ _ Np), (never_occurrences _ _ Nc),
    (never_occurrences _ _ Nl). auto.
Qed.

Lemma once_silent (t : list event) :
  Forall (fun ev => silent ev = true) t -> acts_at_most_once t.
Proof.
  intros H. rewrite <- (app_nil_r t). apply once_after_silent; [exact H|].
  unfold acts_at_most_once, occurrences. cbn. lia.
Qed.

Lemma once_report_errors (m : M text) :
  acts_at_most_once (trace m) -> acts_at_most_once (trace (report_errors m)).
Proof.
  destruct m as [t [a|e]]; [trivial|].
  rewrite report_errors_raise. cbn [trace fst].
  intros (Hp & Hc & Hl). unfold acts_at_most_once.
  rewrite !occurrences_app. unfold occurrences at 2 4 6. cbn. lia.
Qed.

(** Settle the counts on an explicit trace. *)
Ltac count_events :=
  unfold acts_at_most_once, occurrences; cbn; repeat split; lia.

Lemma once_after_question (q : text) (t : list event) :
  occurrences is_prompt t = 0%nat ->
  (occurrences is_cache_write t <= 1)%nat ->
  (occurrences is_launch t <= 1)%nat ->
  acts_at_most_once (EPrompt q :: t).
Proof.
  intros Hp Hc Hl. unfold acts_at_most_once, occurrences in *.
  cbn [filter is_prompt is_cache_write is_launch List.length]. lia.
Qed.

Lemma open_directly_once (E : env) (root : pyval) (top : candidate) :
  acts_at_most_once (trace (open_directly E root top)).
Proof.
  unfold open_directly.
  destruct (path_join root (file_path top)) as [p|e]; norm;
    [|count_events].
  destruct (_cache_recent_file E p) as [[]|e]; norm; [|count_events].
  destruct (open_in_editor E p) as [[]|e]; norm; count_events.
Qed.

Lemma open_selected_once (E : env) (root : pyval)
  (matches : list candidate) (choice : string) (q msg : text) :
  acts_at_most_once
    (EPrompt q ::
     trace (try_except (open_selected E root matches choice) selection_error
              (fun _ => ret msg))).
Proof.
  assert (Hstop : forall t e,
             acts_at_most_once (EPrompt q :: t) ->
             acts_at_most_once
               (EPrompt q ::
                trace (try_except (t, Raise e) selection_error
                         (fun _ => ret msg)))).
  { intros t e Ht. cbn [try_except]. destruct (selection_error e);
      cbn [ret trace fst]; rewrite ?app_nil_r; exact Ht. }
  unfold open_selected.
  destruct (py_int choice) as [n|e]; norm; [|apply Hstop; count_events].
  destruct (py_index matches (n - 1)) as [c|e]; norm;
    [|apply Hstop; count_events].
  destruct (path_join root (file_path c)) as [p|e]; norm;
    [|apply Hstop; count_events].
  destruct (_cache_recent_file E p) as [[]|e]; norm;
    [|apply Hstop; count_events].
  destruct (open_in_editor E p) as [[]|e]; norm;
    [|apply Hstop]; count_events.
Qed.

Lemma open_recent_once (files : list string) (choice : string)
  (q msg : text) :
  acts_at_most_once
    (EPrompt q ::
     trace (try_except (open_recent files choice) selection_error
              (fun _ => ret msg))).
Proof.
  assert (Hstop : forall t e,
             acts_at_most_once (EPrompt q :: t) ->
             acts_at_most_once
               (EPrompt q ::
                trace (try_except (t, Raise e) selection_error
                         (fun _ => ret msg)))).
  { intros t e Ht. cbn [try_except]. destruct (selection_error e);
      cbn [ret trace fst]; rewrite ?app_nil_r; exact Ht. }
  unfold open_recent.
  destruct (py_int choice) as [n|e]; norm; [|apply Hstop; count_events].
  destruct (py_index files (n - 1)) as [f|e]; norm;
    [|apply Hstop]; count_events.
Qed.

Lemma echoes_are_silent (t : list event) :
  Forall (fun ev => is_echo ev = true) t ->
  Forall (fun ev => silent ev = true) t.
Proof.
  apply Forall_impl. intros [] H; try discriminate H; reflexivity.
Qed.

Lemma show_options_once (E : env) (root : pyval)
  (matches : list candidate) :
  acts_at_most_once (trace (show_options E root matches)).
Proof.
  unfold show_options. run_step. run_step. rewrite app_comm_cons.
  apply once_after_silent.
  { constructor; [reflexivity|]. apply echoes_are_silent, menu_echoes. }
  destruct (outcome _); [|count_events].
  run_step.
  destruct (prompt E _) as [choice|e]; [|count_events].
  apply open_selected_once.
Qed.

Lemma resolve_once (E : env) (root : pyval) (matches : list candidate) :
  acts_at_most_once (trace (resolve E root matches)).
Proof.
  unfold resolve. destruct matches as [|top rest]; [count_events|].
  destruct (py_gt (confidence_score top) (PFloat float_0_9)) as [[|]|e];
    norm; rewrite ?trace_after; cbn [app].
  - apply open_directly_once.
  - apply show_options_once.
  - count_events.
Qed.

Lemma match_files_once (E : env) (ws root : pyval) (d : string) :
  acts_at_most_once (trace (match_files E ws root d)).
Proof.
  unfold match_files.
  destruct (get_codebase_structure E root) as [cs|e]; norm; [|count_events].
  destruct (get_framework_specific_prompt E ws cs d) as [p|e]; norm;
    [|count_events].
  destruct (json_prompt E p) as [response|e]; norm; [|count_events].
  rewrite trace_after. apply once_after_silent; [repeat constructor|].
  unfold rank_and_resolve.
  destruct (parse_matches response) as [parsed|e]; norm; [|count_events].
  destruct (sort_matches parsed) as [ranked|e]; norm; [|count_events].
  rewrite trace_after. apply once_after_silent; [repeat constructor|].
  apply resolve_once.
Qed.

Lemma recent_files_request_once (E : env) :
  acts_at_most_once (trace (recent_files_request E)).
Proof.
  unfold recent_files_request.
  destruct (_get_recent_files E) as [files|e]; norm; [|count_events].
  rewrite trace_after. apply once_after_silent; [repeat constructor|].
  unfold choose_recent. destruct files as [|f fs]; [count_events|].
  rewrite listing_run. norm. rewrite trace_after.
  apply once_after_silent.
  { constructor; [reflexivity|].
    apply echoes_are_silent. apply Forall_forall. intros ev Hev.
    apply in_map_iff in Hev. destruct Hev as ([i g] & <- & _). reflexivity. }
  destruct (prompt E _) as [choice|e]; [|count_events].
  rewrite bind_ok, trace_after. cbn [app]. apply open_recent_once.
Qed.

(** On every run [edit_file] asks the user at most one question, writes the
    recent-files cache at most once and starts the editor at most once,
    whatever the collaborators answer. *)
Theorem edit_file_acts_at_most_once (E : env) (d : string) (w : pyval) :
  (occurrences is_prompt (trace (edit_file E d w)) <= 1)%nat
  /\ (occurrences is_cache_write (trace (edit_file E d w)) <= 1)%nat
  /\ (occurrences is_launch (trace (edit_file E d w)) <= 1)%nat.
Proof.
  change (acts_at_most_once (trace (edit_file E d w))).
  rewrite edit_file_unfold, trace_after.
  apply once_after_silent; [repeat constructor|].
  apply once_report_errors.
  destruct (edit_file_body_cases E d w)
    as [(pre & ws & root & Hpre & ->) | (pre & r & Hpre & -> & _)].
  - rewrite find_and_open_unfold, after_after, trace_after.
    apply once_after_silent.
    { apply Forall_app. split;
        [apply context_is_silent; exact Hpre | repeat constructor]. }
    destruct (contains "recent" (lower d)).
    + apply recent_files_request_once.
    + apply match_files_once.
  - apply once_silent. apply context_is_silent. exact Hpre.
Qed.
